(** * provider-stackrox: the Cluster and InitBundle controllers

    A shallow embedding of [pkg/controller/cluster/cluster.go] and of the
    InitBundle controller, together with the API types they read and write,
    and the properties of the reconciliation methods ([Observe], [Create],
    [Update], [Delete], [Disconnect]) and of the mappers
    ([generateCluster], [generateObservation], [isUpToDate]).

    Go pointers that may be nil are [option]s, Go maps are [gmap]s (a map
    that may be nil is an [option (gmap _ _)]), a Go [(value, error)] result
    is a pair whose second component is an [option errors.error].  The
    remote service is reached through an interface ([v1.Central]); every
    call that goes through it is recorded in the world's call log. *)

From Stdlib Require Import ZArith Lia.
From stdpp Require Import base option strings pretty gmap list.

Local Open Scope Z_scope.
Local Open Scope string_scope.
Local Open Scope list_scope.

(** ** gRPC status codes ([google.golang.org/grpc/codes]) *)

Module codes.
Definition Canceled : N := 1%N.
Definition NotFound : N := 5%N.
Definition Internal : N := 13%N.
Definition Unavailable : N := 14%N.

(** [Code.String]: the name of a code, or [Code(n)] for a number that is
    no code. *)
Definition String (c : N) : string :=
  match c with
  | 0%N => "OK"
  | 1%N => "Canceled"
  | 2%N => "Unknown"
  | 3%N => "InvalidArgument"
  | 4%N => "DeadlineExceeded"
  | 5%N => "NotFound"
  | 6%N => "AlreadyExists"
  | 7%N => "PermissionDenied"
  | 8%N => "ResourceExhausted"
  | 9%N => "FailedPrecondition"
  | 10%N => "Aborted"
  | 11%N => "OutOfRange"
  | 12%N => "Unimplemented"
  | 13%N => "Internal"
  | 14%N => "Unavailable"
  | 15%N => "DataLoss"
  | 16%N => "Unauthenticated"
  | _ => "Code(" +:+ pretty c +:+ ")"
  end.
End codes.

(** ** Errors ([github.com/pkg/errors]) *)

Module errors.

(** An error value: a plain message, a gRPC status (code and message), or
    an error wrapped with a message by [Wrap]. *)
Inductive error : Type :=
| New (message : string)
| Status (code : N) (message : string)
| withMessage (cause : error) (message : string).

(** [errors.Wrap] returns nil when [err] is nil. *)
Definition Wrap (err : option error) (message : string) : option error :=
  match err with
  | None => None
  | Some e => Some (withMessage e message)
  end.

(** [errors.WithStack] only annotates the error with a stack trace. *)
Definition WithStack (err : option error) : option error := err.

(** The text of an error: a gRPC status prints its code and its message,
    a wrapped error its message before the text of its cause. *)
Fixpoint Error (e : error) : string :=
  match e with
  | New m => m
  | Status c m => "rpc error: code = " +:+ codes.String c +:+ " desc = " +:+ m
  | withMessage c m => m +:+ ": " +:+ Error c
  end.

Fixpoint Cause (e : error) : error :=
  match e with
  | withMessage c _ => Cause c
  | _ => e
  end.

#[global] Instance error_eq_dec : EqDecision error.
Proof. solve_decision. Defined.

End errors.

(** ** Time stamps and object metadata ([k8s.io/apimachinery]) *)

Module metav1.

(** An instant, in nanoseconds since the Unix epoch. *)
Definition Time : Type := Z.

(** The zero value of [time.Time]: the first of January of year 1. *)
Definition zero : Time := -62135596800 * 1000000000.

(** [time.Unix(sec, nsec)]. *)
Definition Unix (sec nsec : Z) : Time := sec * 1000000000 + nsec.

Record ObjectMeta : Type := {
  Name : string;
  Annotations : gmap string string
}.

End metav1.

(** ** Lifecycle conditions ([crossplane-runtime/apis/common/v1]) *)

Module xpv1.

Definition TypeReady : string := "Ready".
Definition TypeSynced : string := "Synced".

Definition ConditionTrue : string := "True".
Definition ConditionFalse : string := "False".
Definition ConditionUnknown : string := "Unknown".

Definition ReasonAvailable : string := "Available".
Definition ReasonUnavailable : string := "Unavailable".
Definition ReasonCreating : string := "Creating".
Definition ReasonDeleting : string := "Deleting".

Record Condition : Type := {
  Type_ : string;
  Status : string;
  LastTransitionTime : metav1.Time;
  Reason : string;
  Message : string
}.

#[global] Instance Condition_eq_dec : EqDecision Condition.
Proof. solve_decision. Defined.

(** The constructors stamp the condition with the current time; the
    reading of the clock is their argument. *)
Definition Creating (now : metav1.Time) : Condition :=
  {| Type_ := TypeReady; Status := ConditionFalse;
     LastTransitionTime := now; Reason := ReasonCreating; Message := "" |}.

Definition Deleting (now : metav1.Time) : Condition :=
  {| Type_ := TypeReady; Status := ConditionFalse;
     LastTransitionTime := now; Reason := ReasonDeleting; Message := "" |}.

Definition Available (now : metav1.Time) : Condition :=
  {| Type_ := TypeReady; Status := ConditionTrue;
     LastTransitionTime := now; Reason := ReasonAvailable; Message := "" |}.

(** [Condition.Equal] ignores the transition time. *)
Definition Equal (c other : Condition) : bool :=
  bool_decide (Type_ c = Type_ other) && bool_decide (Status c = Status other)
  && bool_decide (Reason c = Reason other)
  && bool_decide (Message c = Message other).

(** One round of the outer loop of [SetConditions]. *)
Definition setCondition (conds : list Condition) (new : Condition)
  : list Condition :=
  let replaced :=
    (fun existing =>
       if bool_decide (Type_ existing = Type_ new)
       then (if Equal existing new then existing else new)
       else existing) <$> conds in
  if existsb (fun existing => bool_decide (Type_ existing = Type_ new)) conds
  then replaced
  else conds ++ [new].

Definition SetConditions (conds : list Condition) (c : list Condition)
  : list Condition :=
  foldl setCondition conds c.

Fixpoint GetCondition (conds : list Condition) (ct : string) : Condition :=
  match conds with
  | [] => {| Type_ := ct; Status := ConditionUnknown;
             LastTransitionTime := metav1.zero; Reason := ""; Message := "" |}
  | c :: rest => if bool_decide (Type_ c = ct) then c else GetCondition rest ct
  end.

End xpv1.

(** ** The external-name annotation ([crossplane-runtime/pkg/meta]) *)

Module meta.

Definition AnnotationKeyExternalName : string := "crossplane.io/external-name".

Definition GetExternalName (o : metav1.ObjectMeta) : string :=
  default "" (metav1.Annotations o !! AnnotationKeyExternalName).

Definition SetExternalName (o : metav1.ObjectMeta) (name : string)
  : metav1.ObjectMeta :=
  {| metav1.Name := metav1.Name o;
     metav1.Annotations :=
       <[AnnotationKeyExternalName := name]> (metav1.Annotations o) |}.

End meta.

(** ** The remote representation of a cluster ([generated/storage]) *)

Module storage.

(** The generated name and value tables of the protobuf enumerations.  The
    controller only indexes them, so they are taken as given. *)
Class Enums : Type := {
  CollectionMethod_name : gmap Z string;
  CollectionMethod_value : gmap string Z;
  ClusterType_name : gmap Z string;
  ClusterType_value : gmap string Z;
  ManagerType_name : gmap Z string
}.

(** Indexing a Go map yields the zero value of the element type for a key
    that is absent. *)
Definition name_at (table : gmap Z string) (code : Z) : string :=
  default "" (table !! code).

Definition value_at (table : gmap string Z) (name : string) : Z :=
  default 0 (table !! name).

Module TolerationsConfig.
Record t : Type := { Disabled : bool }.
Definition GetDisabled (m : option t) : bool := from_option Disabled false m.
End TolerationsConfig.

Module SensorDeploymentIdentification.
Record t : Type := {
  SystemNamespaceId : string;
  DefaultNamespaceId : string;
  AppNamespace : string;
  AppNamespaceId : string;
  AppServiceaccountId : string;
  K8SNodeName : string
}.
Definition GetSystemNamespaceId (m : option t) := from_option SystemNamespaceId "" m.
Definition GetDefaultNamespaceId (m : option t) := from_option DefaultNamespaceId "" m.
Definition GetAppNamespace (m : option t) := from_option AppNamespace "" m.
Definition GetAppNamespaceId (m : option t) := from_option AppNamespaceId "" m.
Definition GetAppServiceaccountId (m : option t) := from_option AppServiceaccountId "" m.
Definition GetK8SNodeName (m : option t) := from_option K8SNodeName "" m.
End SensorDeploymentIdentification.

Module Cluster.
Record t : Type := {
  Id : string;
  Name : string;
  Type_ : Z;
  Labels : option (gmap string string);
  MainImage : string;
  CollectorImage : string;
  CentralApiEndpoint : string;
  RuntimeSupport : bool;
  CollectionMethod : Z;
  AdmissionController : bool;
  AdmissionControllerUpdates : bool;
  AdmissionControllerEvents : bool;
  TolerationsConfig : option TolerationsConfig.t;
  Priority : Z;
  SlimCollector : bool;
  MostRecentSensorId : option SensorDeploymentIdentification.t;
  InitBundleId : string;
  ManagedBy : Z
}.

(** [&storage.Cluster{}] *)
Definition zero : t :=
  {| Id := ""; Name := ""; Type_ := 0; Labels := None; MainImage := "";
     CollectorImage := ""; CentralApiEndpoint := ""; RuntimeSupport := false;
     CollectionMethod := 0; AdmissionController := false;
     AdmissionControllerUpdates := false; AdmissionControllerEvents := false;
     TolerationsConfig := None; Priority := 0; SlimCollector := false;
     MostRecentSensorId := None; InitBundleId := ""; ManagedBy := 0 |}.
End Cluster.

Module UserAttribute.
Record t : Type := { Key : string; Value : string }.
End UserAttribute.

Module User.
Record t : Type := {
  Id : string;
  AuthProviderId : string;
  Attributes : list UserAttribute.t
}.
Definition GetId (m : option t) := from_option Id "" m.
Definition GetAuthProviderId (m : option t) := from_option AuthProviderId "" m.
Definition GetAttributes (m : option t) := from_option Attributes [] m.
End User.

End storage.

(** ** The messages of the remote API ([generated/api/v1]) *)

Module v1.

Module ClusterResponse.
Record t : Type := { Cluster : option storage.Cluster.t }.
End ClusterResponse.

Module ClustersList.
Record t : Type := { Clusters : list storage.Cluster.t }.
End ClustersList.

Module ResourceByID.
Record t : Type := { Id : string }.
End ResourceByID.

Module Timestamp.
Record t : Type := { Seconds : Z; Nanos : Z }.
Definition GetSeconds (m : option t) : Z := from_option Seconds 0 m.
Definition GetNanos (m : option t) : Z := from_option Nanos 0 m.
End Timestamp.

Module ImpactedCluster.
Record t : Type := { Name : string; Id : string }.
End ImpactedCluster.

Module InitBundleMeta.
Record t : Type := {
  Id : string;
  Name : string;
  ImpactedClusters : list ImpactedCluster.t;
  CreatedAt : option Timestamp.t;
  CreatedBy : option storage.User.t;
  ExpiresAt : option Timestamp.t
}.
End InitBundleMeta.

Module InitBundleMetasResponse.
Record t : Type := { Items : list InitBundleMeta.t }.
End InitBundleMetasResponse.

Module InitBundleGenRequest.
Record t : Type := { Name : string }.
End InitBundleGenRequest.

Module InitBundleGenResponse.
Record t : Type := {
  Meta : option InitBundleMeta.t;
  HelmValuesBundle : string;
  KubectlBundle : string
}.
End InitBundleGenResponse.

Module InitBundleRevokeRequest.
Record t : Type := { Ids : list string }.
End InitBundleRevokeRequest.

Module InitBundleRevokeResponse.
Record t : Type := { InitBundleRevokedIds : list string }.
End InitBundleRevokeResponse.

(** The outcome of a remote call: the response, or the error of the
    service or of the transport. *)
Inductive reply (A : Type) : Type :=
| Ok (resp : A)
| Fail (err : errors.error).
Arguments Ok {A} resp.
Arguments Fail {A} err.

Definition reply_err {A : Type} (r : reply A) : option errors.error :=
  match r with
  | Ok _ => None
  | Fail e => Some e
  end.

(** The remote service as the controllers see it: the methods of
    [ClustersServiceClient] and [ClusterInitServiceClient] that they call,
    and [Close] of the connection that carries them.  [S] is the state of
    whatever stands behind the connection. *)
Class Central (S : Type) : Type := {
  GetClusters : S -> reply ClustersList.t * S;
  PostCluster : storage.Cluster.t -> S -> reply ClusterResponse.t * S;
  PutCluster : storage.Cluster.t -> S -> reply ClusterResponse.t * S;
  DeleteCluster : ResourceByID.t -> S -> reply unit * S;
  GetInitBundles : S -> reply InitBundleMetasResponse.t * S;
  GenerateInitBundle :
    InitBundleGenRequest.t -> S -> reply InitBundleGenResponse.t * S;
  RevokeInitBundle :
    InitBundleRevokeRequest.t -> S -> reply InitBundleRevokeResponse.t * S;
  Close : S -> option errors.error * S
}.

(** What goes over the wire, for the call log. *)
Inductive Call : Type :=
| CallGetClusters
| CallPostCluster (req : storage.Cluster.t)
| CallPutCluster (req : storage.Cluster.t)
| CallDeleteCluster (req : ResourceByID.t)
| CallGetInitBundles
| CallGenerateInitBundle (req : InitBundleGenRequest.t)
| CallRevokeInitBundle (req : InitBundleRevokeRequest.t)
| CallClose.

End v1.

(** ** The Cluster custom resource ([apis/cluster/v1alpha1]) *)

Module cluster_v1alpha1.

Module ClusterParameters.
Record t : Type := {
  AdmissionController : bool;
  AdmissionControllerEvents : bool;
  AdmissionControllerUpdates : bool;
  CentralAPIEndpoint : string;
  CollectionMethod : string;
  CollectorImage : string;
  Labels : option (gmap string string);
  MainImage : string;
  Name : string;
  SlimCollector : bool;
  Tolerations : bool;
  Type_ : string
}.
End ClusterParameters.

(** The variant names that the validation markers of [ClusterParameters]
    declare for [CollectionMethod] and for [Type]. *)
Definition CollectionMethodEnum : list string :=
  ["UNSET_COLLECTION"; "NO_COLLECTION"; "KERNEL_MODULE"; "EBPF"].

Definition TypeEnum : list string :=
  ["GENERIC_CLUSTER"; "KUBERNETES_CLUSTER"; "OPENSHIFT_CLUSTER";
   "OPENSHIFT4_CLUSTER"].

(** A parameter set that passes validation. *)
Definition valid (p : ClusterParameters.t) : Prop :=
  ClusterParameters.CollectionMethod p ∈ CollectionMethodEnum
  ∧ ClusterParameters.Type_ p ∈ TypeEnum.

Module SensorDeployment.
Record t : Type := {
  AppNamespace : string;
  AppNamespaceID : string;
  AppServiceAccountID : string;
  DefaultNamespaceID : string;
  K8SNodeName : string;
  SystemNamespaceID : string
}.
End SensorDeployment.

Module ClusterObservation.
Record t : Type := {
  AdmissionController : bool;
  AdmissionControllerEvents : bool;
  AdmissionControllerUpdates : bool;
  CentralAPIEndpoint : string;
  CollectionMethod : string;
  CollectorImage : string;
  ID : string;
  InitBundleID : string;
  Labels : option (gmap string string);
  MainImage : string;
  ManagedBy : string;
  MostRecentSensor : SensorDeployment.t;
  Name : string;
  SlimCollector : bool;
  Tolerations : bool;
  Type_ : string
}.
End ClusterObservation.

(** [Cluster], with [Spec.ForProvider], [Status.Conditions] and
    [Status.AtProvider] as fields of their own. *)
Module Cluster.
Record t : Type := {
  ObjectMeta : metav1.ObjectMeta;
  ForProvider : ClusterParameters.t;
  Conditions : list xpv1.Condition;
  AtProvider : ClusterObservation.t
}.

Definition setAtProvider (cr : t) (o : ClusterObservation.t) : t :=
  {| ObjectMeta := ObjectMeta cr; ForProvider := ForProvider cr;
     Conditions := Conditions cr; AtProvider := o |}.

Definition SetConditions (cr : t) (c : list xpv1.Condition) : t :=
  {| ObjectMeta := ObjectMeta cr; ForProvider := ForProvider cr;
     Conditions := xpv1.SetConditions (Conditions cr) c;
     AtProvider := AtProvider cr |}.

Definition GetCondition (cr : t) (ct : string) : xpv1.Condition :=
  xpv1.GetCondition (Conditions cr) ct.

Definition GetExternalName (cr : t) : string :=
  meta.GetExternalName (ObjectMeta cr).

Definition SetExternalName (cr : t) (name : string) : t :=
  {| ObjectMeta := meta.SetExternalName (ObjectMeta cr) name;
     ForProvider := ForProvider cr; Conditions := Conditions cr;
     AtProvider := AtProvider cr |}.
End Cluster.

End cluster_v1alpha1.

(** ** The InitBundle custom resource ([apis/initbundle/v1alpha1]) *)

Module initbundle_v1alpha1.

Module ImpactedCluster.
Record t : Type := { ID : string; Name : string }.
End ImpactedCluster.

Module User.
Record t : Type := {
  Attributes : gmap string string;
  AuthProviderID : string;
  ID : string
}.
End User.

Module InitBundleParameters.
Record t : Type := { Name : string }.
End InitBundleParameters.

Module InitBundleObservation.
Record t : Type := {
  CreatedAt : metav1.Time;
  CreatedBy : User.t;
  ExpiresAt : metav1.Time;
  ID : string;
  ImpactedClusters : list ImpactedCluster.t;
  Name : string
}.
End InitBundleObservation.

Module InitBundle.
Record t : Type := {
  ObjectMeta : metav1.ObjectMeta;
  ForProvider : InitBundleParameters.t;
  Conditions : list xpv1.Condition;
  AtProvider : InitBundleObservation.t
}.

Definition setAtProvider (cr : t) (o : InitBundleObservation.t) : t :=
  {| ObjectMeta := ObjectMeta cr; ForProvider := ForProvider cr;
     Conditions := Conditions cr; AtProvider := o |}.

Definition SetConditions (cr : t) (c : list xpv1.Condition) : t :=
  {| ObjectMeta := ObjectMeta cr; ForProvider := ForProvider cr;
     Conditions := xpv1.SetConditions (Conditions cr) c;
     AtProvider := AtProvider cr |}.

Definition GetCondition (cr : t) (ct : string) : xpv1.Condition :=
  xpv1.GetCondition (Conditions cr) ct.

Definition GetExternalName (cr : t) : string :=
  meta.GetExternalName (ObjectMeta cr).

Definition SetExternalName (cr : t) (name : string) : t :=
  {| ObjectMeta := meta.SetExternalName (ObjectMeta cr) name;
     ForProvider := ForProvider cr; Conditions := Conditions cr;
     AtProvider := AtProvider cr |}.
End InitBundle.

End initbundle_v1alpha1.

(** ** What the reconciler hands to a controller ([crossplane-runtime]) *)

Module resource.

(** The [Managed] interface, closed over the kinds of this provider. *)
Inductive Managed : Type :=
| OfCluster (cr : cluster_v1alpha1.Cluster.t)
| OfInitBundle (cr : initbundle_v1alpha1.InitBundle.t).

(** [GetObjectMeta]: the metadata of the record, whatever its kind. *)
Definition ObjectMeta (mg : Managed) : metav1.ObjectMeta :=
  match mg with
  | OfCluster cr => cluster_v1alpha1.Cluster.ObjectMeta cr
  | OfInitBundle cr => initbundle_v1alpha1.InitBundle.ObjectMeta cr
  end.

Definition SetConditions (mg : Managed) (c : list xpv1.Condition) : Managed :=
  match mg with
  | OfCluster cr => OfCluster (cluster_v1alpha1.Cluster.SetConditions cr c)
  | OfInitBundle cr =>
      OfInitBundle (initbundle_v1alpha1.InitBundle.SetConditions cr c)
  end.

End resource.

Module managed.

Module ExternalObservation.
Record t : Type := {
  ResourceExists : bool;
  ResourceUpToDate : bool;
  Diff : string
}.
Definition zero : t :=
  {| ResourceExists := false; ResourceUpToDate := false; Diff := "" |}.
End ExternalObservation.

Module ExternalCreation.
Record t : Type := { ConnectionDetails : gmap string string }.
Definition zero : t := {| ConnectionDetails := ∅ |}.
End ExternalCreation.

Module ExternalUpdate.
Record t : Type := { ConnectionDetails : gmap string string }.
Definition zero : t := {| ConnectionDetails := ∅ |}.
End ExternalUpdate.

End managed.

(** ** The world a pass runs in *)

(** The state behind the connection, the log of the calls made through it
    (oldest first) and the clock that [metav1.Now] reads.  The clock is a
    logical one: it counts the readings, so that every reading is later
    than all the readings before it. *)
Record World (S : Type) : Type := {
  remote : S;
  calls : list v1.Call;
  clock : metav1.Time
}.
Arguments remote {S} w.
Arguments calls {S} w.
Arguments clock {S} w.

(** A step of a pass: it reads and updates the world. *)
Definition M (S A : Type) : Type := World S -> A * World S.

#[global] Instance M_ret {S : Type} : MRet (M S) :=
  fun A (a : A) w => (a, w).

#[global] Instance M_bind {S : Type} : MBind (M S) :=
  fun A B (k : A -> M S B) (m : M S A) w =>
    let '(a, w') := m w in k a w'.

(** A call through the connection: logged, then answered by the service. *)
Definition invoke {S A : Type} (c : v1.Call) (rpc : S -> A * S) : M S A :=
  fun w =>
    let '(a, s') := rpc (remote w) in
    (a, {| remote := s'; calls := calls w ++ [c]; clock := clock w |}).

(** The world after one more call [c] that left the service in [s]. *)
Definition after {S : Type} (w : World S) (c : v1.Call) (s : S) : World S :=
  {| remote := s; calls := calls w ++ [c]; clock := clock w |}.

(** The world once the clock has been read. *)
Definition tick {S : Type} (w : World S) : World S :=
  {| remote := remote w; calls := calls w; clock := clock w + 1 |}.

(** [metav1.Now()]: a fresh reading of the clock on every call. *)
Definition Now {S : Type} : M S metav1.Time := fun w => (clock w, tick w).

(** ** The connection ([pkg/clients/central]) *)

Module central.
Definition ErrNewClient : string := "cannot create central client".
Definition ErrCloseClient : string := "cannot close central client".
End central.

(** [*grpc.ClientConn]: a handle on the connection; what it is connected
    to, and whether it is still open, is part of the world. *)
Record ClientConn : Type := { target : string }.

(** [cmp.Diff]'s report, reduced to the names of the fields that differ,
    one per line; it is empty exactly when no field differs. *)
Definition newline : string := String (Ascii.ascii_of_nat 10) EmptyString.

Definition report (fields : list (string * bool)) : string :=
  foldr (fun '(name, same) rest =>
           if same : bool then rest else "  " +:+ name +:+ newline +:+ rest)
        "" fields.

(** [cmpopts.EquateEmpty]: a nil map and an empty map are equal. *)
Definition EquateEmpty (x y : option (gmap string string)) : bool :=
  bool_decide (default ∅ x = default ∅ y).

(** ** The Cluster controller ([pkg/controller/cluster]) *)

Module cluster.
Import cluster_v1alpha1.

Definition errNotCluster : string := "managed resource is not a Cluster custom resource".
Definition errGetFailed : string := "cannot get cluster".
Definition errObserveFailed : string := "cannot observe cluster".
Definition errCreateFailed : string := "cannot create cluster".
Definition errUpdateFailed : string := "cannot update cluster".
Definition errDeleteFailed : string := "cannot delete cluster".

(** The external client; [client] is nil until a connection is dialled.
    [Observe], [Create], [Update] and [Delete] below are the methods of an
    external client as [Connect] returns it, with a connection: their
    calls go through the connection to the service of the world. *)
Record external : Type := { client : option ClientConn }.

(** The connector; [external_] is nil until [Connect] has succeeded. *)
Record connector : Type := { external_ : option external }.

Section controller.
Context {S : Type} {svc : v1.Central S} {tables : storage.Enums}.

Definition close (c : option external) : M S (option errors.error) :=
  match c with
  | Some {| client := Some _ |} =>
      err ← invoke v1.CallClose v1.Close;
      mret (errors.Wrap err central.ErrCloseClient)
  | _ => mret None
  end.

Definition Disconnect (c : connector) : M S (option errors.error) :=
  err ← close (external_ c);
  mret (errors.Wrap err central.ErrCloseClient).

Definition generateObservation (in_ : storage.Cluster.t) : ClusterObservation.t :=
  let s := storage.Cluster.MostRecentSensorId in_ in
  let mostRecentSensor :=
    {| SensorDeployment.AppNamespace :=
         storage.SensorDeploymentIdentification.GetAppNamespace s;
       SensorDeployment.AppNamespaceID :=
         storage.SensorDeploymentIdentification.GetAppNamespaceId s;
       SensorDeployment.AppServiceAccountID :=
         storage.SensorDeploymentIdentification.GetAppServiceaccountId s;
       SensorDeployment.DefaultNamespaceID :=
         storage.SensorDeploymentIdentification.GetDefaultNamespaceId s;
       SensorDeployment.K8SNodeName :=
         storage.SensorDeploymentIdentification.GetK8SNodeName s;
       SensorDeployment.SystemNamespaceID :=
         storage.SensorDeploymentIdentification.GetSystemNamespaceId s |} in
  {| ClusterObservation.AdmissionController :=
       storage.Cluster.AdmissionController in_;
     ClusterObservation.AdmissionControllerEvents :=
       storage.Cluster.AdmissionControllerEvents in_;
     ClusterObservation.AdmissionControllerUpdates :=
       storage.Cluster.AdmissionControllerUpdates in_;
     ClusterObservation.CentralAPIEndpoint :=
       storage.Cluster.CentralApiEndpoint in_;
     ClusterObservation.CollectionMethod :=
       storage.name_at storage.CollectionMethod_name
                       (storage.Cluster.CollectionMethod in_);
     ClusterObservation.CollectorImage := storage.Cluster.CollectorImage in_;
     ClusterObservation.ID := storage.Cluster.Id in_;
     ClusterObservation.InitBundleID := "";
     ClusterObservation.Labels := storage.Cluster.Labels in_;
     ClusterObservation.MainImage := storage.Cluster.MainImage in_;
     ClusterObservation.ManagedBy :=
       storage.name_at storage.ManagerType_name (storage.Cluster.ManagedBy in_);
     ClusterObservation.MostRecentSensor := mostRecentSensor;
     ClusterObservation.Name := storage.Cluster.Name in_;
     ClusterObservation.SlimCollector := storage.Cluster.SlimCollector in_;
     ClusterObservation.Tolerations :=
       negb (storage.TolerationsConfig.GetDisabled
               (storage.Cluster.TolerationsConfig in_));
     ClusterObservation.Type_ :=
       storage.name_at storage.ClusterType_name (storage.Cluster.Type_ in_) |}.

(** The assignments to [base], one field after the other; the fields that
    are not assigned keep the value they have in [base]. *)
Definition generateCluster (in_ : ClusterParameters.t)
    (base : option storage.Cluster.t) : storage.Cluster.t :=
  let base := default storage.Cluster.zero base in
  {| storage.Cluster.Id := storage.Cluster.Id base;
     storage.Cluster.Name := ClusterParameters.Name in_;
     storage.Cluster.Type_ :=
       storage.value_at storage.ClusterType_value (ClusterParameters.Type_ in_);
     storage.Cluster.Labels := ClusterParameters.Labels in_;
     storage.Cluster.MainImage := ClusterParameters.MainImage in_;
     storage.Cluster.CollectorImage := ClusterParameters.CollectorImage in_;
     storage.Cluster.CentralApiEndpoint :=
       ClusterParameters.CentralAPIEndpoint in_;
     storage.Cluster.RuntimeSupport := storage.Cluster.RuntimeSupport base;
     storage.Cluster.CollectionMethod :=
       storage.value_at storage.CollectionMethod_value
                        (ClusterParameters.CollectionMethod in_);
     storage.Cluster.AdmissionController :=
       ClusterParameters.AdmissionController in_;
     storage.Cluster.AdmissionControllerUpdates :=
       ClusterParameters.AdmissionControllerUpdates in_;
     storage.Cluster.AdmissionControllerEvents :=
       ClusterParameters.AdmissionControllerEvents in_;
     storage.Cluster.TolerationsConfig :=
       Some {| storage.TolerationsConfig.Disabled :=
                 negb (ClusterParameters.Tolerations in_) |};
     storage.Cluster.Priority := storage.Cluster.Priority base;
     storage.Cluster.SlimCollector := ClusterParameters.SlimCollector in_;
     storage.Cluster.MostRecentSensorId :=
       storage.Cluster.MostRecentSensorId base;
     storage.Cluster.InitBundleId := storage.Cluster.InitBundleId base;
     storage.Cluster.ManagedBy := storage.Cluster.ManagedBy base |}.

(** The parameters that [isUpToDate] reads back from the remote
    representation. *)
Definition observedParams (observed : storage.Cluster.t) : ClusterParameters.t :=
  {| ClusterParameters.AdmissionController :=
       storage.Cluster.AdmissionController observed;
     ClusterParameters.AdmissionControllerEvents :=
       storage.Cluster.AdmissionControllerEvents observed;
     ClusterParameters.AdmissionControllerUpdates :=
       storage.Cluster.AdmissionControllerUpdates observed;
     ClusterParameters.CentralAPIEndpoint :=
       storage.Cluster.CentralApiEndpoint observed;
     ClusterParameters.CollectionMethod :=
       storage.name_at storage.CollectionMethod_name
                       (storage.Cluster.CollectionMethod observed);
     ClusterParameters.CollectorImage := storage.Cluster.CollectorImage observed;
     ClusterParameters.Labels := storage.Cluster.Labels observed;
     ClusterParameters.MainImage := storage.Cluster.MainImage observed;
     ClusterParameters.Name := storage.Cluster.Name observed;
     ClusterParameters.SlimCollector := storage.Cluster.SlimCollector observed;
     ClusterParameters.Tolerations :=
       negb (storage.TolerationsConfig.GetDisabled
               (storage.Cluster.TolerationsConfig observed));
     ClusterParameters.Type_ :=
       storage.name_at storage.ClusterType_name (storage.Cluster.Type_ observed) |}.

(** [cmp.Diff(x, y, cmpopts.EquateEmpty())] on two parameter sets. *)
Definition Diff (x y : ClusterParameters.t) : string :=
  report
    [ ("AdmissionController",
       bool_decide (ClusterParameters.AdmissionController x
                    = ClusterParameters.AdmissionController y));
      ("AdmissionControllerEvents",
       bool_decide (ClusterParameters.AdmissionControllerEvents x
                    = ClusterParameters.AdmissionControllerEvents y));
      ("AdmissionControllerUpdates",
       bool_decide (ClusterParameters.AdmissionControllerUpdates x
                    = ClusterParameters.AdmissionControllerUpdates y));
      ("CentralAPIEndpoint",
       bool_decide (ClusterParameters.CentralAPIEndpoint x
                    = ClusterParameters.CentralAPIEndpoint y));
      ("CollectionMethod",
       bool_decide (ClusterParameters.CollectionMethod x
                    = ClusterParameters.CollectionMethod y));
      ("CollectorImage",
       bool_decide (ClusterParameters.CollectorImage x
                    = ClusterParameters.CollectorImage y));
      ("Labels",
       EquateEmpty (ClusterParameters.Labels x) (ClusterParameters.Labels y));
      ("MainImage",
       bool_decide (ClusterParameters.MainImage x
                    = ClusterParameters.MainImage y));
      ("Name",
       bool_decide (ClusterParameters.Name x = ClusterParameters.Name y));
      ("SlimCollector",
       bool_decide (ClusterParameters.SlimCollector x
                    = ClusterParameters.SlimCollector y));
      ("Tolerations",
       bool_decide (ClusterParameters.Tolerations x
                    = ClusterParameters.Tolerations y));
      ("Type",
       bool_decide (ClusterParameters.Type_ x = ClusterParameters.Type_ y)) ].

Definition isUpToDate (in_ : Cluster.t) (observed : storage.Cluster.t)
  : bool * string :=
  let diff := Diff (Cluster.ForProvider in_) (observedParams observed) in
  if bool_decide (diff ≠ "")
  then (false, "Observed difference in cluster" +:+ newline +:+ diff)
  else (true, "").

Definition getCluster (cr : Cluster.t)
  : M S (option storage.Cluster.t * option errors.error) :=
  r ← invoke v1.CallGetClusters v1.GetClusters;
  match r with
  | v1.Fail err => mret (None, errors.Wrap (Some err) errGetFailed)
  | v1.Ok resp =>
      mret (find (fun it => bool_decide (storage.Cluster.Name it
                                         = Cluster.GetExternalName cr))
                 (v1.ClustersList.Clusters resp),
            None)
  end.

Definition Observe (mg : resource.Managed)
  : M S (resource.Managed * (managed.ExternalObservation.t * option errors.error)) :=
  match mg with
  | resource.OfCluster cr =>
      '(cluster, err) ← getCluster cr;
      match err, cluster with
      | Some _, _ =>
          mret (mg, (managed.ExternalObservation.zero,
                     errors.Wrap err errObserveFailed))
      | None, None =>
          mret (mg, ({| managed.ExternalObservation.ResourceExists := false;
                        managed.ExternalObservation.ResourceUpToDate := false;
                        managed.ExternalObservation.Diff := "" |}, None))
      | None, Some cluster =>
          let cr := Cluster.setAtProvider cr (generateObservation cluster) in
          now ← Now;
          let cr := Cluster.SetConditions cr [xpv1.Available now] in
          let '(upToDate, diff) := isUpToDate cr cluster in
          mret (resource.OfCluster cr,
                ({| managed.ExternalObservation.ResourceExists := true;
                    managed.ExternalObservation.ResourceUpToDate := upToDate;
                    managed.ExternalObservation.Diff := diff |}, None))
      end
  | _ => mret (mg, (managed.ExternalObservation.zero,
                    Some (errors.New errNotCluster)))
  end.

Definition Create (mg : resource.Managed)
  : M S (resource.Managed * (managed.ExternalCreation.t * option errors.error)) :=
  match mg with
  | resource.OfCluster cr =>
      now ← Now;
      let cr := Cluster.SetConditions cr [xpv1.Creating now] in
      let req := generateCluster (Cluster.ForProvider cr) None in
      r ← invoke (v1.CallPostCluster req) (v1.PostCluster req);
      match r with
      | v1.Fail err =>
          mret (resource.OfCluster cr,
                (managed.ExternalCreation.zero,
                 errors.Wrap (Some err) errCreateFailed))
      | v1.Ok resp =>
          let cr :=
            match v1.ClusterResponse.Cluster resp with
            | Some c =>
                Cluster.SetExternalName
                  (Cluster.setAtProvider cr (generateObservation c))
                  (storage.Cluster.Name c)
            | None => cr
            end in
          mret (resource.OfCluster cr, (managed.ExternalCreation.zero, None))
      end
  | _ => mret (mg, (managed.ExternalCreation.zero,
                    Some (errors.New errNotCluster)))
  end.

Definition Update (mg : resource.Managed)
  : M S (resource.Managed * (managed.ExternalUpdate.t * option errors.error)) :=
  match mg with
  | resource.OfCluster cr =>
      '(cluster, err) ← getCluster cr;
      match err, cluster with
      | Some _, _ =>
          mret (mg, (managed.ExternalUpdate.zero,
                     errors.Wrap err errUpdateFailed))
      | None, None => mret (mg, (managed.ExternalUpdate.zero, None))
      | None, Some cluster =>
          let req := generateCluster (Cluster.ForProvider cr) (Some cluster) in
          r ← invoke (v1.CallPutCluster req) (v1.PutCluster req);
          match r with
          | v1.Fail err =>
              mret (mg, (managed.ExternalUpdate.zero,
                         errors.Wrap (Some err) errCreateFailed))
          | v1.Ok resp =>
              let cr :=
                match v1.ClusterResponse.Cluster resp with
                | Some c =>
                    Cluster.SetExternalName
                      (Cluster.setAtProvider cr (generateObservation c))
                      (storage.Cluster.Name c)
                | None => cr
                end in
              mret (resource.OfCluster cr, (managed.ExternalUpdate.zero, None))
          end
      end
  | _ => mret (mg, (managed.ExternalUpdate.zero,
                    Some (errors.New errNotCluster)))
  end.

Definition Delete (mg : resource.Managed)
  : M S (resource.Managed * option errors.error) :=
  match mg with
  | resource.OfCluster cr =>
      now ← Now;
      let mg := resource.SetConditions mg [xpv1.Deleting now] in
      let req := {| v1.ResourceByID.Id :=
                      ClusterObservation.ID (Cluster.AtProvider cr) |} in
      r ← invoke (v1.CallDeleteCluster req) (v1.DeleteCluster req);
      mret (mg, errors.Wrap (v1.reply_err r) errDeleteFailed)
  | _ => mret (mg, Some (errors.New errNotCluster))
  end.

End controller.

(** The generated tables are closed over the declared variants: the name
    table maps the code of each declared name back to that name. *)
Definition closed_tables (tables : storage.Enums) : Prop :=
  Forall (fun n => storage.name_at storage.CollectionMethod_name
                     (storage.value_at storage.CollectionMethod_value n) = n)
         CollectionMethodEnum
  ∧ Forall (fun n => storage.name_at storage.ClusterType_name
                       (storage.value_at storage.ClusterType_value n) = n)
           TypeEnum.

(** Two parameter sets that [cmp.Diff] with [EquateEmpty] finds equal:
    every field the same, the labels up to nil against empty. *)
Definition same_parameters (x y : ClusterParameters.t) : Prop :=
  ClusterParameters.AdmissionController x = ClusterParameters.AdmissionController y
  ∧ ClusterParameters.AdmissionControllerEvents x
    = ClusterParameters.AdmissionControllerEvents y
  ∧ ClusterParameters.AdmissionControllerUpdates x
    = ClusterParameters.AdmissionControllerUpdates y
  ∧ ClusterParameters.CentralAPIEndpoint x = ClusterParameters.CentralAPIEndpoint y
  ∧ ClusterParameters.CollectionMethod x = ClusterParameters.CollectionMethod y
  ∧ ClusterParameters.CollectorImage x = ClusterParameters.CollectorImage y
  ∧ default ∅ (ClusterParameters.Labels x) = default ∅ (ClusterParameters.Labels y)
  ∧ ClusterParameters.MainImage x = ClusterParameters.MainImage y
  ∧ ClusterParameters.Name x = ClusterParameters.Name y
  ∧ ClusterParameters.SlimCollector x = ClusterParameters.SlimCollector y
  ∧ ClusterParameters.Tolerations x = ClusterParameters.Tolerations y
  ∧ ClusterParameters.Type_ x = ClusterParameters.Type_ y.

End cluster.

(** ** The InitBundle controller ([pkg/controller/initbundle]) *)

Module initbundle.
Import initbundle_v1alpha1.

Definition errNotInitBundle : string := "managed resource is not a InitBundle custom resource".
Definition errGetFailed : string := "cannot get init bundle".
Definition errObserveFailed : string := "cannot observe init bundle".
Definition errCreateFailed : string := "cannot create init bundle".
Definition errUpdateFailed : string := "cannot update init bundle".
Definition errDeleteFailed : string := "cannot delete init bundle".

Record external : Type := { client : option ClientConn }.

Record connector : Type := { external_ : option external }.

Section controller.
Context {S : Type} {svc : v1.Central S}.

Definition close (c : option external) : M S (option errors.error) :=
  match c with
  | Some {| client := Some _ |} =>
      err ← invoke v1.CallClose v1.Close;
      mret (errors.Wrap err central.ErrCloseClient)
  | _ => mret None
  end.

Definition Disconnect (c : connector) : M S (option errors.error) :=
  err ← close (external_ c);
  mret (errors.Wrap err central.ErrCloseClient).

Definition generateObservation (in_ : v1.InitBundleMeta.t)
  : InitBundleObservation.t :=
  let att :=
    foldl (fun (att : gmap string string) it =>
             <[storage.UserAttribute.Key it := storage.UserAttribute.Value it]> att)
          ∅ (storage.User.GetAttributes (v1.InitBundleMeta.CreatedBy in_)) in
  let ic :=
    foldl (fun (ic : list ImpactedCluster.t) it =>
             (ic ++ [{| ImpactedCluster.ID := v1.ImpactedCluster.Id it;
                        ImpactedCluster.Name := v1.ImpactedCluster.Name it |}])%list)
          [] (v1.InitBundleMeta.ImpactedClusters in_) in
  {| InitBundleObservation.CreatedAt :=
       metav1.Unix (v1.Timestamp.GetSeconds (v1.InitBundleMeta.CreatedAt in_))
                   (v1.Timestamp.GetNanos (v1.InitBundleMeta.CreatedAt in_));
     InitBundleObservation.CreatedBy :=
       {| User.Attributes := att;
          User.AuthProviderID :=
            storage.User.GetAuthProviderId (v1.InitBundleMeta.CreatedBy in_);
          User.ID := storage.User.GetId (v1.InitBundleMeta.CreatedBy in_) |};
     InitBundleObservation.ExpiresAt :=
       metav1.Unix (v1.Timestamp.GetSeconds (v1.InitBundleMeta.ExpiresAt in_))
                   (v1.Timestamp.GetNanos (v1.InitBundleMeta.ExpiresAt in_));
     InitBundleObservation.ID := v1.InitBundleMeta.Id in_;
     InitBundleObservation.ImpactedClusters := ic;
     InitBundleObservation.Name := v1.InitBundleMeta.Name in_ |}.

(** [cmp.Diff(x, y, cmpopts.EquateEmpty())] on two parameter sets. *)
Definition Diff (x y : InitBundleParameters.t) : string :=
  report
    [ ("Name",
       bool_decide (InitBundleParameters.Name x = InitBundleParameters.Name y)) ].

Definition isUpToDate (in_ : InitBundle.t) (observed : v1.InitBundleMeta.t)
  : bool * string :=
  let observedParams :=
    {| InitBundleParameters.Name := v1.InitBundleMeta.Name observed |} in
  let diff := Diff (InitBundle.ForProvider in_) observedParams in
  if bool_decide (diff ≠ "")
  then (false, "Observed difference in init bundle" +:+ newline +:+ diff)
  else (true, "").

Definition getInitBundle (cr : InitBundle.t)
  : M S (option v1.InitBundleMeta.t * option errors.error) :=
  r ← invoke v1.CallGetInitBundles v1.GetInitBundles;
  match r with
  | v1.Fail err => mret (None, errors.Wrap (Some err) errObserveFailed)
  | v1.Ok resp =>
      mret (find (fun it => bool_decide (v1.InitBundleMeta.Name it
                                         = InitBundle.GetExternalName cr))
                 (v1.InitBundleMetasResponse.Items resp),
            None)
  end.

Definition Observe (mg : resource.Managed)
  : M S (resource.Managed * (managed.ExternalObservation.t * option errors.error)) :=
  match mg with
  | resource.OfInitBundle cr =>
      '(bundle, err) ← getInitBundle cr;
      match err, bundle with
      | Some _, _ =>
          mret (mg, (managed.ExternalObservation.zero,
                     errors.Wrap err errObserveFailed))
      | None, None =>
          mret (mg, ({| managed.ExternalObservation.ResourceExists := false;
                        managed.ExternalObservation.ResourceUpToDate := false;
                        managed.ExternalObservation.Diff := "" |}, None))
      | None, Some bundle =>
          let cr := InitBundle.setAtProvider cr (generateObservation bundle) in
          now ← Now;
          let cr := InitBundle.SetConditions cr [xpv1.Available now] in
          let '(upToDate, diff) := isUpToDate cr bundle in
          mret (resource.OfInitBundle cr,
                ({| managed.ExternalObservation.ResourceExists := true;
                    managed.ExternalObservation.ResourceUpToDate := upToDate;
                    managed.ExternalObservation.Diff := diff |}, None))
      end
  | _ => mret (mg, (managed.ExternalObservation.zero,
                    Some (errors.New errNotInitBundle)))
  end.

Definition Create (mg : resource.Managed)
  : M S (resource.Managed * (managed.ExternalCreation.t * option errors.error)) :=
  match mg with
  | resource.OfInitBundle cr =>
      now ← Now;
      let cr := InitBundle.SetConditions cr [xpv1.Creating now] in
      let req := {| v1.InitBundleGenRequest.Name :=
                      InitBundleParameters.Name (InitBundle.ForProvider cr) |} in
      r ← invoke (v1.CallGenerateInitBundle req) (v1.GenerateInitBundle req);
      match r with
      | v1.Fail err =>
          mret (resource.OfInitBundle cr,
                (managed.ExternalCreation.zero,
                 errors.Wrap (Some err) errCreateFailed))
      | v1.Ok resp =>
          let cr :=
            match v1.InitBundleGenResponse.Meta resp with
            | Some m =>
                InitBundle.SetExternalName
                  (InitBundle.setAtProvider cr (generateObservation m))
                  (v1.InitBundleMeta.Name m)
            | None => cr
            end in
          mret (resource.OfInitBundle cr,
                ({| managed.ExternalCreation.ConnectionDetails :=
                      <["kubectlBundle" :=
                          v1.InitBundleGenResponse.KubectlBundle resp]>
                        (<["helmValuesBundle" :=
                             v1.InitBundleGenResponse.HelmValuesBundle resp]> ∅)
                 |}, None))
      end
  | _ => mret (mg, (managed.ExternalCreation.zero,
                    Some (errors.New errNotInitBundle)))
  end.

Definition Delete (mg : resource.Managed)
  : M S (resource.Managed * option errors.error) :=
  match mg with
  | resource.OfInitBundle cr =>
      now ← Now;
      let mg := resource.SetConditions mg [xpv1.Deleting now] in
      let req := {| v1.InitBundleRevokeRequest.Ids :=
                      [InitBundleObservation.ID (InitBundle.AtProvider cr)] |} in
      r ← invoke (v1.CallRevokeInitBundle req) (v1.RevokeInitBundle req);
      mret (mg, errors.Wrap (v1.reply_err r) errDeleteFailed)
  | _ => mret (mg, Some (errors.New errNotInitBundle))
  end.

(** [GetCondition(TypeReady) == xpv1.Creating()] compares the whole
    condition, the transition time included, with one stamped now; the
    comparison with [xpv1.Deleting()] is made only when the first one is
    false. *)
Definition Update (mg : resource.Managed)
  : M S (resource.Managed * (managed.ExternalUpdate.t * option errors.error)) :=
  match mg with
  | resource.OfInitBundle cr =>
      now ← Now;
      if bool_decide (InitBundle.GetCondition cr xpv1.TypeReady = xpv1.Creating now)
      then mret (mg, (managed.ExternalUpdate.zero, None))
      else
        now ← Now;
        if bool_decide (InitBundle.GetCondition cr xpv1.TypeReady
                        = xpv1.Deleting now)
        then mret (mg, (managed.ExternalUpdate.zero, None))
        else
          '(mg, err) ← Delete mg;
          mret (mg, (managed.ExternalUpdate.zero,
                     errors.Wrap err errUpdateFailed))
  | _ => mret (mg, (managed.ExternalUpdate.zero,
                    Some (errors.New errNotInitBundle)))
  end.

(** The service honours a revocation between the states [s] and [s']:
    what it lists in [s'] is what it listed in [s], without the bundles
    whose identifier was revoked. *)
Definition revocation_honoured (ids : list string) (s s' : S) : Prop :=
  ∃ before after_ s0 s1,
    v1.GetInitBundles s = (v1.Ok before, s0)
    ∧ v1.GetInitBundles s' = (v1.Ok after_, s1)
    ∧ v1.InitBundleMetasResponse.Items after_
      = filter (fun b => v1.InitBundleMeta.Id b ∉ ids)
               (v1.InitBundleMetasResponse.Items before).

(** The identifier held in the status is that of every listed bundle that
    carries the external name: what the last [Observe] stored, on a
    service that keeps names unique. *)
Definition status_identifies (cr : InitBundle.t) (s : S) : Prop :=
  ∀ resp s0 b,
    v1.GetInitBundles s = (v1.Ok resp, s0) ->
    b ∈ v1.InitBundleMetasResponse.Items resp ->
    v1.InitBundleMeta.Name b = InitBundle.GetExternalName cr ->
    v1.InitBundleMeta.Id b = InitBundleObservation.ID (InitBundle.AtProvider cr).

End controller.
End initbundle.

(** ** A service kept in memory

    An implementation of [v1.Central] for concrete runs.  It holds the
    clusters and the bundles, refuses a second resource of the same name,
    and answers a delete or a replace for an identifier it does not hold
    with the not-found status.  [write_fault], when set, is the error every
    mutating call fails with; [outage] the error every call fails with.
    [Close] on a connection that is closed returns grpc's
    [ErrClientConnClosing], as does every call made through it. *)

Module fake.

Record Server : Type := {
  clusters : list storage.Cluster.t;
  bundles : list v1.InitBundleMeta.t;
  closed : bool;
  outage : option errors.error;
  write_fault : option errors.error
}.

Definition ErrClientConnClosing : errors.error :=
  errors.Status codes.Canceled "grpc: the client connection is closing".

Definition errNotFound : errors.error :=
  errors.Status codes.NotFound "not found".

Definition errAlreadyExists : errors.error :=
  errors.Status 6%N "already exists".

Definition with_clusters (s : Server) (l : list storage.Cluster.t) : Server :=
  {| clusters := l; bundles := bundles s; closed := closed s;
     outage := outage s; write_fault := write_fault s |}.

Definition with_bundles (s : Server) (l : list v1.InitBundleMeta.t) : Server :=
  {| clusters := clusters s; bundles := l; closed := closed s;
     outage := outage s; write_fault := write_fault s |}.

(** What the transport says before the service is asked. *)
Definition reachable (write : bool) (s : Server) : option errors.error :=
  if closed s then Some ErrClientConnClosing
  else match outage s with
       | Some e => Some e
       | None => if write then write_fault s else None
       end.

Definition assign_id (name : string) : string := "id-" +:+ name.

Definition GetClusters (s : Server) : v1.reply v1.ClustersList.t * Server :=
  match reachable false s with
  | Some e => (v1.Fail e, s)
  | None => (v1.Ok {| v1.ClustersList.Clusters := clusters s |}, s)
  end.

Definition stored (req : storage.Cluster.t) (id : string) : storage.Cluster.t :=
  {| storage.Cluster.Id := id;
     storage.Cluster.Name := storage.Cluster.Name req;
     storage.Cluster.Type_ := storage.Cluster.Type_ req;
     storage.Cluster.Labels := storage.Cluster.Labels req;
     storage.Cluster.MainImage := storage.Cluster.MainImage req;
     storage.Cluster.CollectorImage := storage.Cluster.CollectorImage req;
     storage.Cluster.CentralApiEndpoint := storage.Cluster.CentralApiEndpoint req;
     storage.Cluster.RuntimeSupport := storage.Cluster.RuntimeSupport req;
     storage.Cluster.CollectionMethod := storage.Cluster.CollectionMethod req;
     storage.Cluster.AdmissionController := storage.Cluster.AdmissionController req;
     storage.Cluster.AdmissionControllerUpdates :=
       storage.Cluster.AdmissionControllerUpdates req;
     storage.Cluster.AdmissionControllerEvents :=
       storage.Cluster.AdmissionControllerEvents req;
     storage.Cluster.TolerationsConfig := storage.Cluster.TolerationsConfig req;
     storage.Cluster.Priority := storage.Cluster.Priority req;
     storage.Cluster.SlimCollector := storage.Cluster.SlimCollector req;
     storage.Cluster.MostRecentSensorId := storage.Cluster.MostRecentSensorId req;
     storage.Cluster.InitBundleId := storage.Cluster.InitBundleId req;
     storage.Cluster.ManagedBy := storage.Cluster.ManagedBy req |}.

Definition PostCluster (req : storage.Cluster.t) (s : Server)
  : v1.reply v1.ClusterResponse.t * Server :=
  match reachable true s with
  | Some e => (v1.Fail e, s)
  | None =>
      if existsb (fun c => bool_decide (storage.Cluster.Name c
                                        = storage.Cluster.Name req)) (clusters s)
      then (v1.Fail errAlreadyExists, s)
      else
        let c := stored req (assign_id (storage.Cluster.Name req)) in
        (v1.Ok {| v1.ClusterResponse.Cluster := Some c |},
         with_clusters s (clusters s ++ [c]))
  end.

Definition PutCluster (req : storage.Cluster.t) (s : Server)
  : v1.reply v1.ClusterResponse.t * Server :=
  match reachable true s with
  | Some e => (v1.Fail e, s)
  | None =>
      if existsb (fun c => bool_decide (storage.Cluster.Id c
                                        = storage.Cluster.Id req)) (clusters s)
      then
        (v1.Ok {| v1.ClusterResponse.Cluster := Some req |},
         with_clusters s
           ((fun c => if bool_decide (storage.Cluster.Id c = storage.Cluster.Id req)
                      then req else c) <$> clusters s))
      else (v1.Fail errNotFound, s)
  end.

Definition DeleteCluster (req : v1.ResourceByID.t) (s : Server)
  : v1.reply unit * Server :=
  match reachable true s with
  | Some e => (v1.Fail e, s)
  | None =>
      if existsb (fun c => bool_decide (storage.Cluster.Id c
                                        = v1.ResourceByID.Id req)) (clusters s)
      then
        (v1.Ok tt,
         with_clusters s
           (filter (fun c => storage.Cluster.Id c ≠ v1.ResourceByID.Id req)
                   (clusters s)))
      else (v1.Fail errNotFound, s)
  end.

Definition GetInitBundles (s : Server)
  : v1.reply v1.InitBundleMetasResponse.t * Server :=
  match reachable false s with
  | Some e => (v1.Fail e, s)
  | None => (v1.Ok {| v1.InitBundleMetasResponse.Items := bundles s |}, s)
  end.

Definition GenerateInitBundle (req : v1.InitBundleGenRequest.t) (s : Server)
  : v1.reply v1.InitBundleGenResponse.t * Server :=
  match reachable true s with
  | Some e => (v1.Fail e, s)
  | None =>
      if existsb (fun b => bool_decide (v1.InitBundleMeta.Name b
                                        = v1.InitBundleGenRequest.Name req))
                 (bundles s)
      then (v1.Fail errAlreadyExists, s)
      else
        let m :=
          {| v1.InitBundleMeta.Id := assign_id (v1.InitBundleGenRequest.Name req);
             v1.InitBundleMeta.Name := v1.InitBundleGenRequest.Name req;
             v1.InitBundleMeta.ImpactedClusters := [];
             v1.InitBundleMeta.CreatedAt := None;
             v1.InitBundleMeta.CreatedBy := None;
             v1.InitBundleMeta.ExpiresAt := None |} in
        (v1.Ok {| v1.InitBundleGenResponse.Meta := Some m;
                  v1.InitBundleGenResponse.HelmValuesBundle := "helm-values";
                  v1.InitBundleGenResponse.KubectlBundle := "kubectl-secrets" |},
         with_bundles s (bundles s ++ [m]))
  end.

Definition RevokeInitBundle (req : v1.InitBundleRevokeRequest.t) (s : Server)
  : v1.reply v1.InitBundleRevokeResponse.t * Server :=
  match reachable true s with
  | Some e => (v1.Fail e, s)
  | None =>
      if forallb (fun id => existsb (fun b => bool_decide (v1.InitBundleMeta.Id b = id))
                                    (bundles s))
                 (v1.InitBundleRevokeRequest.Ids req)
      then
        (v1.Ok {| v1.InitBundleRevokeResponse.InitBundleRevokedIds :=
                    v1.InitBundleRevokeRequest.Ids req |},
         with_bundles s
           (filter (fun b => v1.InitBundleMeta.Id b
                             ∉ v1.InitBundleRevokeRequest.Ids req)
                   (bundles s)))
      else (v1.Fail errNotFound, s)
  end.

Definition Close (s : Server) : option errors.error * Server :=
  if closed s then (Some ErrClientConnClosing, s)
  else (None, {| clusters := clusters s; bundles := bundles s; closed := true;
                 outage := outage s; write_fault := write_fault s |}).

#[global] Instance central : v1.Central Server := {
  v1.GetClusters := GetClusters;
  v1.PostCluster := PostCluster;
  v1.PutCluster := PutCluster;
  v1.DeleteCluster := DeleteCluster;
  v1.GetInitBundles := GetInitBundles;
  v1.GenerateInitBundle := GenerateInitBundle;
  v1.RevokeInitBundle := RevokeInitBundle;
  v1.Close := Close
}.

(** The tables generated from Central's protobuf enumerations. *)
Definition tables : storage.Enums := {|
  storage.CollectionMethod_name :=
    <[0 := "UNSET_COLLECTION"]> (<[1 := "NO_COLLECTION"]>
      (<[2 := "KERNEL_MODULE"]> (<[3 := "EBPF"]> ∅)));
  storage.CollectionMethod_value :=
    <["UNSET_COLLECTION" := 0]> (<["NO_COLLECTION" := 1]>
      (<["KERNEL_MODULE" := 2]> (<["EBPF" := 3]> ∅)));
  storage.ClusterType_name :=
    <[0 := "GENERIC_CLUSTER"]> (<[1 := "KUBERNETES_CLUSTER"]>
      (<[2 := "OPENSHIFT_CLUSTER"]> (<[5 := "OPENSHIFT4_CLUSTER"]> ∅)));
  storage.ClusterType_value :=
    <["GENERIC_CLUSTER" := 0]> (<["KUBERNETES_CLUSTER" := 1]>
      (<["OPENSHIFT_CLUSTER" := 2]> (<["OPENSHIFT4_CLUSTER" := 5]> ∅)));
  storage.ManagerType_name :=
    <[0 := "MANAGER_TYPE_UNKNOWN"]> (<[1 := "MANAGER_TYPE_MANUAL"]>
      (<[2 := "MANAGER_TYPE_HELM_CHART"]>
         (<[3 := "MANAGER_TYPE_KUBERNETES_OPERATOR"]> ∅)))
|}.

End fake.

(** ** Sample data for concrete runs *)

Module sample.
Import cluster_v1alpha1 initbundle_v1alpha1.

Definition params_named (name : string) : ClusterParameters.t :=
  {| ClusterParameters.AdmissionController := true;
     ClusterParameters.AdmissionControllerEvents := false;
     ClusterParameters.AdmissionControllerUpdates := false;
     ClusterParameters.CentralAPIEndpoint := "central.stackrox:443";
     ClusterParameters.CollectionMethod := "EBPF";
     ClusterParameters.CollectorImage := "registry.redhat.io/collector";
     ClusterParameters.Labels := None;
     ClusterParameters.MainImage := "registry.redhat.io/main";
     ClusterParameters.Name := name;
     ClusterParameters.SlimCollector := true;
     ClusterParameters.Tolerations := true;
     ClusterParameters.Type_ := "KUBERNETES_CLUSTER" |}.

Definition params : ClusterParameters.t := params_named "prod".

(** The remote cluster "prod", as Central holds it after some time: with
    an identifier, a sensor, another collector image, tolerations off. *)
Definition remote_cluster : storage.Cluster.t :=
  {| storage.Cluster.Id := "7f3c";
     storage.Cluster.Name := "prod";
     storage.Cluster.Type_ := 1;
     storage.Cluster.Labels := Some ∅;
     storage.Cluster.MainImage := "registry.redhat.io/main";
     storage.Cluster.CollectorImage := "quay.io/collector";
     storage.Cluster.CentralApiEndpoint := "central.stackrox:443";
     storage.Cluster.RuntimeSupport := true;
     storage.Cluster.CollectionMethod := 3;
     storage.Cluster.AdmissionController := true;
     storage.Cluster.AdmissionControllerUpdates := false;
     storage.Cluster.AdmissionControllerEvents := false;
     storage.Cluster.TolerationsConfig :=
       Some {| storage.TolerationsConfig.Disabled := true |};
     storage.Cluster.Priority := 4;
     storage.Cluster.SlimCollector := true;
     storage.Cluster.MostRecentSensorId :=
       Some {| storage.SensorDeploymentIdentification.SystemNamespaceId := "ns-0";
               storage.SensorDeploymentIdentification.DefaultNamespaceId := "ns-1";
               storage.SensorDeploymentIdentification.AppNamespace := "stackrox";
               storage.SensorDeploymentIdentification.AppNamespaceId := "ns-2";
               storage.SensorDeploymentIdentification.AppServiceaccountId := "sa-0";
               storage.SensorDeploymentIdentification.K8SNodeName := "node-a" |};
     storage.Cluster.InitBundleId := "b-19";
     storage.Cluster.ManagedBy := 1 |}.

Definition other_cluster : storage.Cluster.t :=
  fake.stored
    (cluster.generateCluster (tables := fake.tables) (params_named "staging") None)
    "0a11".

Definition no_observation : ClusterObservation.t :=
  {| ClusterObservation.AdmissionController := false;
     ClusterObservation.AdmissionControllerEvents := false;
     ClusterObservation.AdmissionControllerUpdates := false;
     ClusterObservation.CentralAPIEndpoint := "";
     ClusterObservation.CollectionMethod := "";
     ClusterObservation.CollectorImage := "";
     ClusterObservation.ID := "";
     ClusterObservation.InitBundleID := "";
     ClusterObservation.Labels := None;
     ClusterObservation.MainImage := "";
     ClusterObservation.ManagedBy := "";
     ClusterObservation.MostRecentSensor :=
       {| SensorDeployment.AppNamespace := "";
          SensorDeployment.AppNamespaceID := "";
          SensorDeployment.AppServiceAccountID := "";
          SensorDeployment.DefaultNamespaceID := "";
          SensorDeployment.K8SNodeName := "";
          SensorDeployment.SystemNamespaceID := "" |};
     ClusterObservation.Name := "";
     ClusterObservation.SlimCollector := false;
     ClusterObservation.Tolerations := false;
     ClusterObservation.Type_ := "" |}.

(** A Cluster record that was never created: no external name, no
    conditions, nothing observed. *)
Definition new_cluster : Cluster.t :=
  {| Cluster.ObjectMeta :=
       {| metav1.Name := "prod"; metav1.Annotations := ∅ |};
     Cluster.ForProvider := params;
     Cluster.Conditions := [];
     Cluster.AtProvider := no_observation |}.

(** The same record once linked to the remote cluster "prod" and observed
    at time 100. *)
Definition linked_cluster : Cluster.t :=
  Cluster.SetConditions
    (Cluster.setAtProvider
       (Cluster.SetExternalName new_cluster "prod")
       (cluster.generateObservation (tables := fake.tables) remote_cluster))
    [xpv1.Available 100].

Definition remote_bundle : v1.InitBundleMeta.t :=
  {| v1.InitBundleMeta.Id := "b-19";
     v1.InitBundleMeta.Name := "prod-bundle";
     v1.InitBundleMeta.ImpactedClusters :=
       [{| v1.ImpactedCluster.Name := "prod"; v1.ImpactedCluster.Id := "7f3c" |}];
     v1.InitBundleMeta.CreatedAt :=
       Some {| v1.Timestamp.Seconds := 1650000000; v1.Timestamp.Nanos := 5 |};
     v1.InitBundleMeta.CreatedBy :=
       Some {| storage.User.Id := "admin";
               storage.User.AuthProviderId := "basic";
               storage.User.Attributes :=
                 [{| storage.UserAttribute.Key := "role";
                     storage.UserAttribute.Value := "Admin" |}] |};
     v1.InitBundleMeta.ExpiresAt :=
       Some {| v1.Timestamp.Seconds := 1680000000; v1.Timestamp.Nanos := 0 |} |}.

Definition no_bundle_observation : InitBundleObservation.t :=
  {| InitBundleObservation.CreatedAt := metav1.zero;
     InitBundleObservation.CreatedBy :=
       {| User.Attributes := ∅; User.AuthProviderID := ""; User.ID := "" |};
     InitBundleObservation.ExpiresAt := metav1.zero;
     InitBundleObservation.ID := "";
     InitBundleObservation.ImpactedClusters := [];
     InitBundleObservation.Name := "" |}.

Definition new_bundle : InitBundle.t :=
  {| InitBundle.ObjectMeta :=
       {| metav1.Name := "prod-bundle"; metav1.Annotations := ∅ |};
     InitBundle.ForProvider := {| InitBundleParameters.Name := "prod-bundle" |};
     InitBundle.Conditions := [];
     InitBundle.AtProvider := no_bundle_observation |}.

Definition linked_bundle : InitBundle.t :=
  InitBundle.SetConditions
    (InitBundle.setAtProvider
       (InitBundle.SetExternalName new_bundle "prod-bundle")
       (initbundle.generateObservation remote_bundle))
    [xpv1.Available 100].

(** A Cluster record whose type is no declared variant. *)
Definition undeclared_type_cluster : Cluster.t :=
  {| Cluster.ObjectMeta := {| metav1.Name := "edge"; metav1.Annotations := ∅ |};
     Cluster.ForProvider :=
       {| ClusterParameters.AdmissionController := true;
          ClusterParameters.AdmissionControllerEvents := false;
          ClusterParameters.AdmissionControllerUpdates := false;
          ClusterParameters.CentralAPIEndpoint := "central.stackrox:443";
          ClusterParameters.CollectionMethod := "EBPF";
          ClusterParameters.CollectorImage := "registry.redhat.io/collector";
          ClusterParameters.Labels := None;
          ClusterParameters.MainImage := "registry.redhat.io/main";
          ClusterParameters.Name := "edge";
          ClusterParameters.SlimCollector := true;
          ClusterParameters.Tolerations := true;
          ClusterParameters.Type_ := "EKS_CLUSTER" |};
     Cluster.Conditions := [];
     Cluster.AtProvider := no_observation |}.

Definition empty_server : fake.Server :=
  {| fake.clusters := []; fake.bundles := []; fake.closed := false;
     fake.outage := None; fake.write_fault := None |}.

Definition server : fake.Server :=
  {| fake.clusters := [other_cluster; remote_cluster];
     fake.bundles := [remote_bundle]; fake.closed := false;
     fake.outage := None; fake.write_fault := None |}.

Definition errPermissionDenied : errors.error :=
  errors.Status 7%N "not authorized".

(** The same service for a token that may read but not write. *)
Definition read_only_server : fake.Server :=
  {| fake.clusters := [other_cluster; remote_cluster];
     fake.bundles := [remote_bundle]; fake.closed := false;
     fake.outage := None; fake.write_fault := Some errPermissionDenied |}.

Definition world (s : fake.Server) : World fake.Server :=
  {| remote := s; calls := []; clock := 200 |}.

End sample.

(** * Properties *)

(** ** Running a step *)

Lemma bind_run {S A B : Type} (m : M S A) (k : A -> M S B) (w : World S) :
  (m ≫= k) w = k (m w).1 (m w).2.
Proof. unfold mbind, M_bind. by destruct (m w). Qed.

Lemma ret_run {S A : Type} (a : A) (w : World S) : (mret a : M S A) w = (a, w).
Proof. reflexivity. Qed.

Lemma invoke_run {S A : Type} (c : v1.Call) (rpc : S -> A * S) (w : World S) :
  invoke c rpc w
  = ((rpc (remote w)).1,
     {| remote := (rpc (remote w)).2; calls := calls w ++ [c]; clock := clock w |}).
Proof. unfold invoke. by destruct (rpc (remote w)). Qed.

Lemma Now_run {S : Type} (w : World S) : Now w = (clock w, tick w).
Proof. reflexivity. Qed.

Lemma remote_tick {S : Type} (w : World S) : remote (tick w) = remote w.
Proof. reflexivity. Qed.

Lemma calls_tick {S : Type} (w : World S) : calls (tick w) = calls w.
Proof. reflexivity. Qed.

Lemma clock_tick {S : Type} (w : World S) : clock (tick w) = clock w + 1.
Proof. reflexivity. Qed.

Ltac run :=
  repeat (rewrite ?bind_run, ?invoke_run, ?Now_run, ?ret_run, ?remote_tick,
            ?calls_tick; cbn [fst snd]).

(** ** The linear search *)

Section search.
Context {A : Type} (P : A -> Prop) `{!∀ x, Decision (P x)}.

Lemma find_none_of_Forall (l : list A) :
  Forall (fun x => ¬ P x) l -> find (fun x => bool_decide (P x)) l = None.
Proof.
  induction 1 as [|x l Hx _ IH]; [done|].
  cbn. by case_bool_decide.
Qed.

Lemma find_some_of_Exists (l : list A) :
  Exists P l -> ∃ x, find (fun x => bool_decide (P x)) l = Some x ∧ P x.
Proof.
  induction 1 as [x l Hx|x l _ IH]; cbn.
  - exists x. by case_bool_decide.
  - case_bool_decide; [by exists x | done].
Qed.

End search.

(** ** The fetch at the start of [Observe] and [Update] *)

Section fetch.
Context {S : Type} {svc : v1.Central S}.

Lemma getCluster_ok (cr : cluster_v1alpha1.Cluster.t) (w : World S)
    (resp : v1.ClustersList.t) (s : S) :
  v1.GetClusters (remote w) = (v1.Ok resp, s) ->
  cluster.getCluster cr w
  = ((find (fun it => bool_decide (storage.Cluster.Name it
                                   = cluster_v1alpha1.Cluster.GetExternalName cr))
           (v1.ClustersList.Clusters resp), None),
     after w v1.CallGetClusters s).
Proof. intros H. unfold cluster.getCluster. run. by rewrite H. Qed.

Lemma getCluster_fail (cr : cluster_v1alpha1.Cluster.t) (w : World S)
    (e : errors.error) (s : S) :
  v1.GetClusters (remote w) = (v1.Fail e, s) ->
  cluster.getCluster cr w
  = ((None, Some (errors.withMessage e cluster.errGetFailed)),
     after w v1.CallGetClusters s).
Proof. intros H. unfold cluster.getCluster. run. by rewrite H. Qed.

Lemma getInitBundle_ok (cr : initbundle_v1alpha1.InitBundle.t) (w : World S)
    (resp : v1.InitBundleMetasResponse.t) (s : S) :
  v1.GetInitBundles (remote w) = (v1.Ok resp, s) ->
  initbundle.getInitBundle cr w
  = ((find (fun it => bool_decide (v1.InitBundleMeta.Name it
                                   = initbundle_v1alpha1.InitBundle.GetExternalName cr))
           (v1.InitBundleMetasResponse.Items resp), None),
     after w v1.CallGetInitBundles s).
Proof. intros H. unfold initbundle.getInitBundle. run. by rewrite H. Qed.

End fetch.

(** ** Observe *)

Section observe.
Context {S : Type} {svc : v1.Central S} {tables : storage.Enums}.

Lemma cluster_Observe_found (cr : cluster_v1alpha1.Cluster.t) (w : World S)
    (resp : v1.ClustersList.t) (s : S) :
  v1.GetClusters (remote w) = (v1.Ok resp, s) ->
  (cluster.Observe (resource.OfCluster cr) w).1.2.2 = None
  ∧ managed.ExternalObservation.ResourceExists
      (cluster.Observe (resource.OfCluster cr) w).1.2.1
    = bool_decide
        (is_Some (find (fun it => bool_decide
                          (storage.Cluster.Name it
                           = cluster_v1alpha1.Cluster.GetExternalName cr))
                       (v1.ClustersList.Clusters resp))).
Proof.
  intros Hget. unfold cluster.Observe. run.
  rewrite (getCluster_ok cr w resp s Hget). cbn [fst snd].
  destruct (find _ _) as [c|]; run.
  - destruct (cluster.isUpToDate _ c); run. split; [done|].
    symmetry. by apply bool_decide_eq_true_2.
  - split; [done|]. symmetry. apply bool_decide_eq_false_2. by intros [? ?].
Qed.

Lemma initbundle_Observe_found (cr : initbundle_v1alpha1.InitBundle.t)
    (w : World S) (resp : v1.InitBundleMetasResponse.t) (s : S) :
  v1.GetInitBundles (remote w) = (v1.Ok resp, s) ->
  (initbundle.Observe (resource.OfInitBundle cr) w).1.2.2 = None
  ∧ managed.ExternalObservation.ResourceExists
      (initbundle.Observe (resource.OfInitBundle cr) w).1.2.1
    = bool_decide
        (is_Some (find (fun it => bool_decide
                          (v1.InitBundleMeta.Name it
                           = initbundle_v1alpha1.InitBundle.GetExternalName cr))
                       (v1.InitBundleMetasResponse.Items resp))).
Proof.
  intros Hget. unfold initbundle.Observe. run.
  rewrite (getInitBundle_ok cr w resp s Hget). cbn [fst snd].
  destruct (find _ _) as [b|]; run.
  - destruct (initbundle.isUpToDate _ b); run. split; [done|].
    symmetry. by apply bool_decide_eq_true_2.
  - split; [done|]. symmetry. apply bool_decide_eq_false_2. by intros [? ?].
Qed.

(** A list call that fails is reported as an error, never as absence. *)
Lemma cluster_Observe_list_fails (cr : cluster_v1alpha1.Cluster.t) (w : World S)
    (e : errors.error) (s : S) :
  v1.GetClusters (remote w) = (v1.Fail e, s) ->
  (cluster.Observe (resource.OfCluster cr) w).1.2.2
  = Some (errors.withMessage (errors.withMessage e cluster.errGetFailed)
                             cluster.errObserveFailed).
Proof.
  intros Hget. unfold cluster.Observe. run.
  by rewrite (getCluster_fail cr w e s Hget).
Qed.

(** C1.  When the list call succeeds, [Observe] returns no error, and it
    reports [ResourceExists = false] if no entry of the returned collection
    (the empty one included) carries the external name of the resource, and
    [ResourceExists = true] if some entry does; for the Cluster kind and for
    the InitBundle kind. *)
Theorem observe_exists_iff_name_listed
    (crc : cluster_v1alpha1.Cluster.t) (wc : World S)
    (respc : v1.ClustersList.t) (sc : S)
    (crb : initbundle_v1alpha1.InitBundle.t) (wb : World S)
    (respb : v1.InitBundleMetasResponse.t) (sb : S) :
  v1.GetClusters (remote wc) = (v1.Ok respc, sc) ->
  v1.GetInitBundles (remote wb) = (v1.Ok respb, sb) ->
  let outc := (cluster.Observe (resource.OfCluster crc) wc).1.2 in
  let outb := (initbundle.Observe (resource.OfInitBundle crb) wb).1.2 in
  let namedc it :=
    storage.Cluster.Name it = cluster_v1alpha1.Cluster.GetExternalName crc in
  let namedb it :=
    v1.InitBundleMeta.Name it = initbundle_v1alpha1.InitBundle.GetExternalName crb in
  (outc.2 = None
   ∧ (Forall (fun it => ¬ namedc it) (v1.ClustersList.Clusters respc) ->
      managed.ExternalObservation.ResourceExists outc.1 = false)
   ∧ (Exists namedc (v1.ClustersList.Clusters respc) ->
      managed.ExternalObservation.ResourceExists outc.1 = true))
  ∧ (outb.2 = None
     ∧ (Forall (fun it => ¬ namedb it) (v1.InitBundleMetasResponse.Items respb) ->
        managed.ExternalObservation.ResourceExists outb.1 = false)
     ∧ (Exists namedb (v1.InitBundleMetasResponse.Items respb) ->
        managed.ExternalObservation.ResourceExists outb.1 = true)).
Proof.
  intros Hc Hb. cbv zeta.
  destruct (cluster_Observe_found crc wc respc sc Hc) as [Hec Hxc].
  destruct (initbundle_Observe_found crb wb respb sb Hb) as [Heb Hxb].
  rewrite Hxc, Hxb. repeat split; try done.
  - intros Hno. rewrite (find_none_of_Forall _ _ Hno).
    apply bool_decide_eq_false_2. by intros [? ?].
  - intros Hsome. destruct (find_some_of_Exists _ _ Hsome) as (c & Hf & _).
    rewrite Hf. by apply bool_decide_eq_true_2.
  - intros Hno. rewrite (find_none_of_Forall _ _ Hno).
    apply bool_decide_eq_false_2. by intros [? ?].
  - intros Hsome. destruct (find_some_of_Exists _ _ Hsome) as (b & Hf & _).
    rewrite Hf. by apply bool_decide_eq_true_2.
Qed.

End observe.

(** A linked Cluster is found on a service that holds it (second in the
    collection); a new InitBundle is not found on an empty service. *)
Lemma observe_exists_iff_name_listed_witness :
  managed.ExternalObservation.ResourceExists
    (cluster.Observe (tables := fake.tables)
       (resource.OfCluster sample.linked_cluster)
       (sample.world sample.server)).1.2.1 = true
  ∧ managed.ExternalObservation.ResourceExists
      (initbundle.Observe (resource.OfInitBundle sample.new_bundle)
         (sample.world sample.empty_server)).1.2.1 = false.
Proof.
  destruct (observe_exists_iff_name_listed (tables := fake.tables)
              sample.linked_cluster (sample.world sample.server)
              {| v1.ClustersList.Clusters := fake.clusters sample.server |}
              sample.server
              sample.new_bundle (sample.world sample.empty_server)
              {| v1.InitBundleMetasResponse.Items := [] |}
              sample.empty_server)
    as [(_ & _ & Hc) (_ & Hb & _)]; [reflexivity | reflexivity |].
  split.
  - apply Hc. apply Exists_cons_tl, Exists_cons_hd. reflexivity.
  - apply Hb. constructor.
Defined.

(** ** Update of a Cluster *)

Section cluster_update.
Context {S : Type} {svc : v1.Central S} {tables : storage.Enums}.

(** What [Update] does once the fetch has found nothing. *)
Lemma cluster_Update_absent (cr : cluster_v1alpha1.Cluster.t) (w : World S)
    (resp : v1.ClustersList.t) (s : S) :
  v1.GetClusters (remote w) = (v1.Ok resp, s) ->
  find (fun it => bool_decide (storage.Cluster.Name it
                               = cluster_v1alpha1.Cluster.GetExternalName cr))
       (v1.ClustersList.Clusters resp) = None ->
  cluster.Update (resource.OfCluster cr) w
  = ((resource.OfCluster cr, (managed.ExternalUpdate.zero, None)),
     after w v1.CallGetClusters s).
Proof.
  intros Hget Hfind. unfold cluster.Update. run.
  rewrite (getCluster_ok cr w resp s Hget), Hfind. by run.
Qed.

(** What [Update] does once the fetch has found [fetched]: the replace call
    carries [generateCluster] of the parameters over [fetched], and its
    reply decides the result. *)
Lemma cluster_Update_present (cr : cluster_v1alpha1.Cluster.t) (w : World S)
    (resp : v1.ClustersList.t) (s : S) (fetched : storage.Cluster.t) :
  v1.GetClusters (remote w) = (v1.Ok resp, s) ->
  find (fun it => bool_decide (storage.Cluster.Name it
                               = cluster_v1alpha1.Cluster.GetExternalName cr))
       (v1.ClustersList.Clusters resp) = Some fetched ->
  let req := cluster.generateCluster (cluster_v1alpha1.Cluster.ForProvider cr)
                                     (Some fetched) in
  let put := v1.PutCluster req s in
  cluster.Update (resource.OfCluster cr) w
  = (match put.1 with
     | v1.Fail e =>
         (resource.OfCluster cr,
          (managed.ExternalUpdate.zero,
           Some (errors.withMessage e cluster.errCreateFailed)))
     | v1.Ok r =>
         (resource.OfCluster
            match v1.ClusterResponse.Cluster r with
            | Some c =>
                cluster_v1alpha1.Cluster.SetExternalName
                  (cluster_v1alpha1.Cluster.setAtProvider
                     cr (cluster.generateObservation c))
                  (storage.Cluster.Name c)
            | None => cr
            end,
          (managed.ExternalUpdate.zero, None))
     end,
     after (after w v1.CallGetClusters s) (v1.CallPutCluster req) put.2).
Proof.
  intros Hget Hfind req put. unfold cluster.Update. run.
  rewrite (getCluster_ok cr w resp s Hget), Hfind. run.
  subst put req. unfold after. cbn [remote calls clock].
  by destruct (v1.PutCluster _ s) as [[r|e] s'].
Qed.

(** C10.  If the fetch at the start of [Update] succeeds and no entry of
    the collection carries the external name, [Update] returns success, the
    resource (status and external name included) is as it was, and the list
    call is the only call made: no replace call is issued. *)
Theorem cluster_update_without_remote_entry_is_noop
    (cr : cluster_v1alpha1.Cluster.t) (w : World S)
    (resp : v1.ClustersList.t) (s : S) :
  v1.GetClusters (remote w) = (v1.Ok resp, s) ->
  Forall (fun it => storage.Cluster.Name it
                    ≠ cluster_v1alpha1.Cluster.GetExternalName cr)
         (v1.ClustersList.Clusters resp) ->
  let out := cluster.Update (resource.OfCluster cr) w in
  out.1.2.2 = None
  ∧ out.1.1 = resource.OfCluster cr
  ∧ calls out.2 = calls w ++ [v1.CallGetClusters].
Proof.
  intros Hget Hno. cbv zeta.
  rewrite (cluster_Update_absent cr w resp s Hget); [done|].
  exact (find_none_of_Forall _ _ Hno).
Qed.

(** C6.  When the fetch at the start of [Update] finds [fetched], the calls
    of [Update] are the list call and one replace call, whose request is
    the parameters mapped onto [fetched] by [generateCluster]: the fields
    the parameter set covers hold the mapped parameters, every other field
    (the identifier, the runtime-support flag, the priority, the sensor, the
    init-bundle identifier, the manager) holds what [fetched] holds. *)
Theorem cluster_update_replaces_over_fetched
    (cr : cluster_v1alpha1.Cluster.t) (w : World S)
    (resp : v1.ClustersList.t) (s : S) (fetched : storage.Cluster.t) :
  v1.GetClusters (remote w) = (v1.Ok resp, s) ->
  find (fun it => bool_decide (storage.Cluster.Name it
                               = cluster_v1alpha1.Cluster.GetExternalName cr))
       (v1.ClustersList.Clusters resp) = Some fetched ->
  let P := cluster_v1alpha1.Cluster.ForProvider cr in
  let req := cluster.generateCluster P (Some fetched) in
  calls (cluster.Update (resource.OfCluster cr) w).2
  = calls w ++ [v1.CallGetClusters; v1.CallPutCluster req]
  ∧ (storage.Cluster.Id req = storage.Cluster.Id fetched
     ∧ storage.Cluster.RuntimeSupport req = storage.Cluster.RuntimeSupport fetched
     ∧ storage.Cluster.Priority req = storage.Cluster.Priority fetched
     ∧ storage.Cluster.MostRecentSensorId req
       = storage.Cluster.MostRecentSensorId fetched
     ∧ storage.Cluster.InitBundleId req = storage.Cluster.InitBundleId fetched
     ∧ storage.Cluster.ManagedBy req = storage.Cluster.ManagedBy fetched)
  ∧ (storage.Cluster.Name req = cluster_v1alpha1.ClusterParameters.Name P
     ∧ storage.Cluster.MainImage req
       = cluster_v1alpha1.ClusterParameters.MainImage P
     ∧ storage.Cluster.CollectorImage req
       = cluster_v1alpha1.ClusterParameters.CollectorImage P
     ∧ storage.Cluster.CentralApiEndpoint req
       = cluster_v1alpha1.ClusterParameters.CentralAPIEndpoint P
     ∧ storage.Cluster.Labels req = cluster_v1alpha1.ClusterParameters.Labels P
     ∧ storage.Cluster.AdmissionController req
       = cluster_v1alpha1.ClusterParameters.AdmissionController P
     ∧ storage.Cluster.AdmissionControllerUpdates req
       = cluster_v1alpha1.ClusterParameters.AdmissionControllerUpdates P
     ∧ storage.Cluster.AdmissionControllerEvents req
       = cluster_v1alpha1.ClusterParameters.AdmissionControllerEvents P
     ∧ storage.Cluster.SlimCollector req
       = cluster_v1alpha1.ClusterParameters.SlimCollector P
     ∧ storage.Cluster.TolerationsConfig req
       = Some {| storage.TolerationsConfig.Disabled :=
                   negb (cluster_v1alpha1.ClusterParameters.Tolerations P) |}
     ∧ storage.Cluster.CollectionMethod req
       = storage.value_at storage.CollectionMethod_value
           (cluster_v1alpha1.ClusterParameters.CollectionMethod P)
     ∧ storage.Cluster.Type_ req
       = storage.value_at storage.ClusterType_value
           (cluster_v1alpha1.ClusterParameters.Type_ P)).
Proof.
  intros Hget Hfind. cbv zeta.
  rewrite (cluster_Update_present cr w resp s fetched Hget Hfind).
  cbn [snd after calls]. rewrite <- app_assoc. done.
Qed.

(** The replace call fails: [Update] wraps the error with the message of
    [Create]. *)
Lemma cluster_Update_replace_fails (cr : cluster_v1alpha1.Cluster.t)
    (w : World S) (resp : v1.ClustersList.t) (s s' : S)
    (fetched : storage.Cluster.t) (e : errors.error) :
  v1.GetClusters (remote w) = (v1.Ok resp, s) ->
  find (fun it => bool_decide (storage.Cluster.Name it
                               = cluster_v1alpha1.Cluster.GetExternalName cr))
       (v1.ClustersList.Clusters resp) = Some fetched ->
  v1.PutCluster (cluster.generateCluster (cluster_v1alpha1.Cluster.ForProvider cr)
                                         (Some fetched)) s
  = (v1.Fail e, s') ->
  (cluster.Update (resource.OfCluster cr) w).1.2.2
  = Some (errors.withMessage e cluster.errCreateFailed).
Proof.
  intros Hget Hfind Hput.
  rewrite (cluster_Update_present cr w resp s fetched Hget Hfind).
  cbv zeta. by rewrite Hput.
Qed.

End cluster_update.

(** On an empty service the linked Cluster is gone: [Update] lists and
    stops. *)
Lemma cluster_update_without_remote_entry_is_noop_witness :
  let out := cluster.Update (tables := fake.tables)
               (resource.OfCluster sample.linked_cluster)
               (sample.world sample.empty_server) in
  out.1.2.2 = None
  ∧ out.1.1 = resource.OfCluster sample.linked_cluster
  ∧ calls out.2 = [v1.CallGetClusters].
Proof.
  apply (cluster_update_without_remote_entry_is_noop (tables := fake.tables)
           sample.linked_cluster (sample.world sample.empty_server)
           {| v1.ClustersList.Clusters := [] |} sample.empty_server).
  - reflexivity.
  - constructor.
Defined.

(** The collector image of the linked Cluster differs from the remote one:
    the replace request carries the desired image and the remote
    identifier. *)
Lemma cluster_update_replaces_over_fetched_witness :
  (∃ req,
     calls (cluster.Update (tables := fake.tables)
              (resource.OfCluster sample.linked_cluster)
              (sample.world sample.server)).2
     = [v1.CallGetClusters; v1.CallPutCluster req]
     ∧ storage.Cluster.CollectorImage req = "registry.redhat.io/collector"
     ∧ storage.Cluster.Id req = "7f3c").
Proof.
  destruct (cluster_update_replaces_over_fetched (tables := fake.tables)
              sample.linked_cluster (sample.world sample.server)
              {| v1.ClustersList.Clusters := fake.clusters sample.server |}
              sample.server sample.remote_cluster)
    as (Hcalls & (Hid & _) & (_ & _ & Himg & _)); [reflexivity | reflexivity |].
  eexists. split; [exact Hcalls|]. split; [exact Himg | exact Hid].
Defined.

(** C5.  A read-only token: the fetch succeeds and the replace call is
    refused.  [Update] of the Cluster kind returns the error wrapped with
    the message of [Create], "cannot create cluster", not with
    [errUpdateFailed]; its text starts with that message and goes on with
    the text of the status. *)
Theorem cluster_update_replace_failure_is_labelled_create :
  let err := (cluster.Update (tables := fake.tables)
                (resource.OfCluster sample.linked_cluster)
                (sample.world sample.read_only_server)).1.2.2 in
  err = Some (errors.withMessage sample.errPermissionDenied cluster.errCreateFailed)
  ∧ err ≠ Some (errors.withMessage sample.errPermissionDenied cluster.errUpdateFailed)
  ∧ errors.Error <$> err
    = Some "cannot create cluster: rpc error: code = PermissionDenied desc = not authorized".
Proof.
  cbv zeta.
  rewrite (cluster_Update_replace_fails (tables := fake.tables)
             sample.linked_cluster (sample.world sample.read_only_server)
             {| v1.ClustersList.Clusters := fake.clusters sample.read_only_server |}
             sample.read_only_server sample.read_only_server
             sample.remote_cluster sample.errPermissionDenied);
    [| reflexivity | reflexivity | reflexivity].
  split; [reflexivity|]. split; [discriminate | reflexivity].
Qed.

(** ** Create *)

Section create.
Context {S : Type} {svc : v1.Central S} {tables : storage.Enums}.

Lemma cluster_Create_fails (cr : cluster_v1alpha1.Cluster.t) (w : World S)
    (e : errors.error) (s : S) :
  v1.PostCluster (cluster.generateCluster
                    (cluster_v1alpha1.Cluster.ForProvider cr) None) (remote w)
  = (v1.Fail e, s) ->
  cluster.Create (resource.OfCluster cr) w
  = ((resource.OfCluster
        (cluster_v1alpha1.Cluster.SetConditions cr [xpv1.Creating (clock w)]),
      (managed.ExternalCreation.zero,
       Some (errors.withMessage e cluster.errCreateFailed))),
     after (tick w)
           (v1.CallPostCluster
              (cluster.generateCluster
                 (cluster_v1alpha1.Cluster.ForProvider cr) None)) s).
Proof.
  intros Hpost. unfold cluster.Create. run.
  cbn [cluster_v1alpha1.Cluster.SetConditions cluster_v1alpha1.Cluster.ForProvider].
  by rewrite Hpost.
Qed.

Lemma initbundle_Create_fails (cr : initbundle_v1alpha1.InitBundle.t)
    (w : World S) (e : errors.error) (s : S) :
  v1.GenerateInitBundle
    {| v1.InitBundleGenRequest.Name :=
         initbundle_v1alpha1.InitBundleParameters.Name
           (initbundle_v1alpha1.InitBundle.ForProvider cr) |} (remote w)
  = (v1.Fail e, s) ->
  initbundle.Create (resource.OfInitBundle cr) w
  = ((resource.OfInitBundle
        (initbundle_v1alpha1.InitBundle.SetConditions cr [xpv1.Creating (clock w)]),
      (managed.ExternalCreation.zero,
       Some (errors.withMessage e initbundle.errCreateFailed))),
     after (tick w)
           (v1.CallGenerateInitBundle
              {| v1.InitBundleGenRequest.Name :=
                   initbundle_v1alpha1.InitBundleParameters.Name
                     (initbundle_v1alpha1.InitBundle.ForProvider cr) |}) s).
Proof.
  intros Hgen. unfold initbundle.Create. run.
  cbn [initbundle_v1alpha1.InitBundle.SetConditions
         initbundle_v1alpha1.InitBundle.ForProvider].
  by rewrite Hgen.
Qed.

(** C7.  When the remote create call fails, [Create] returns the error
    wrapped with the CreateFailed message, and the metadata of the record
    is as it was: the external name is not set (one that was absent stays
    absent), and nothing observed is written to the status; for the Cluster
    kind and for the InitBundle kind. *)
Theorem create_failure_leaves_record_unlinked
    (crc : cluster_v1alpha1.Cluster.t) (wc : World S)
    (ec : errors.error) (sc : S)
    (crb : initbundle_v1alpha1.InitBundle.t) (wb : World S)
    (eb : errors.error) (sb : S) :
  v1.PostCluster (cluster.generateCluster
                    (cluster_v1alpha1.Cluster.ForProvider crc) None) (remote wc)
  = (v1.Fail ec, sc) ->
  v1.GenerateInitBundle
    {| v1.InitBundleGenRequest.Name :=
         initbundle_v1alpha1.InitBundleParameters.Name
           (initbundle_v1alpha1.InitBundle.ForProvider crb) |} (remote wb)
  = (v1.Fail eb, sb) ->
  let outc := cluster.Create (resource.OfCluster crc) wc in
  let outb := initbundle.Create (resource.OfInitBundle crb) wb in
  (outc.1.2.2 = Some (errors.withMessage ec cluster.errCreateFailed)
   ∧ resource.ObjectMeta outc.1.1 = cluster_v1alpha1.Cluster.ObjectMeta crc
   ∧ (metav1.Annotations (cluster_v1alpha1.Cluster.ObjectMeta crc)
        !! meta.AnnotationKeyExternalName = None ->
      metav1.Annotations (resource.ObjectMeta outc.1.1)
        !! meta.AnnotationKeyExternalName = None)
   ∧ outc.1.1
     = resource.OfCluster
         (cluster_v1alpha1.Cluster.SetConditions crc [xpv1.Creating (clock wc)]))
  ∧ (outb.1.2.2 = Some (errors.withMessage eb initbundle.errCreateFailed)
     ∧ resource.ObjectMeta outb.1.1 = initbundle_v1alpha1.InitBundle.ObjectMeta crb
     ∧ (metav1.Annotations (initbundle_v1alpha1.InitBundle.ObjectMeta crb)
          !! meta.AnnotationKeyExternalName = None ->
        metav1.Annotations (resource.ObjectMeta outb.1.1)
          !! meta.AnnotationKeyExternalName = None)
     ∧ outb.1.1
       = resource.OfInitBundle
           (initbundle_v1alpha1.InitBundle.SetConditions
              crb [xpv1.Creating (clock wb)])).
Proof.
  intros Hc Hb. cbv zeta.
  rewrite (cluster_Create_fails crc wc ec sc Hc).
  rewrite (initbundle_Create_fails crb wb eb sb Hb).
  cbn. done.
Qed.

End create.

(** With a read-only token both create calls are refused; the new records
    keep an empty external name. *)
Lemma create_failure_leaves_record_unlinked_witness :
  let outc := cluster.Create (tables := fake.tables)
                (resource.OfCluster sample.new_cluster)
                (sample.world sample.read_only_server) in
  let outb := initbundle.Create (resource.OfInitBundle sample.new_bundle)
                (sample.world sample.read_only_server) in
  (outc.1.2.2
   = Some (errors.withMessage sample.errPermissionDenied cluster.errCreateFailed)
   ∧ meta.GetExternalName (resource.ObjectMeta outc.1.1) = "")
  ∧ (outb.1.2.2
     = Some (errors.withMessage sample.errPermissionDenied
                                initbundle.errCreateFailed)
     ∧ meta.GetExternalName (resource.ObjectMeta outb.1.1) = "").
Proof.
  destruct (create_failure_leaves_record_unlinked (tables := fake.tables)
              sample.new_cluster (sample.world sample.read_only_server)
              sample.errPermissionDenied sample.read_only_server
              sample.new_bundle (sample.world sample.read_only_server)
              sample.errPermissionDenied sample.read_only_server)
    as [(Hec & Hmc & _) (Heb & Hmb & _)]; [reflexivity | reflexivity |].
  cbv zeta. rewrite Hec, Hmc, Heb, Hmb. repeat split.
Defined.

(** ** Delete *)

Section delete.
Context {S : Type} {svc : v1.Central S}.

Lemma cluster_Delete_run (cr : cluster_v1alpha1.Cluster.t) (w : World S) :
  let req := {| v1.ResourceByID.Id :=
                  cluster_v1alpha1.ClusterObservation.ID
                    (cluster_v1alpha1.Cluster.AtProvider cr) |} in
  cluster.Delete (resource.OfCluster cr) w
  = ((resource.OfCluster
        (cluster_v1alpha1.Cluster.SetConditions cr [xpv1.Deleting (clock w)]),
      errors.Wrap (v1.reply_err (v1.DeleteCluster req (remote w)).1)
                  cluster.errDeleteFailed),
     after (tick w) (v1.CallDeleteCluster req)
           (v1.DeleteCluster req (remote w)).2).
Proof. cbv zeta. unfold cluster.Delete. by run. Qed.

Lemma initbundle_Delete_run (cr : initbundle_v1alpha1.InitBundle.t) (w : World S) :
  let req := {| v1.InitBundleRevokeRequest.Ids :=
                  [initbundle_v1alpha1.InitBundleObservation.ID
                     (initbundle_v1alpha1.InitBundle.AtProvider cr)] |} in
  initbundle.Delete (resource.OfInitBundle cr) w
  = ((resource.OfInitBundle
        (initbundle_v1alpha1.InitBundle.SetConditions cr [xpv1.Deleting (clock w)]),
      errors.Wrap (v1.reply_err (v1.RevokeInitBundle req (remote w)).1)
                  initbundle.errDeleteFailed),
     after (tick w) (v1.CallRevokeInitBundle req)
           (v1.RevokeInitBundle req (remote w)).2).
Proof. cbv zeta. unfold initbundle.Delete. by run. Qed.

Lemma Wrap_None_iff (err : option errors.error) (message : string) :
  errors.Wrap err message = None ↔ err = None.
Proof. by destruct err. Qed.

(** C2, as the code has it.  [Delete] issues one delete call for the
    identifier held in the status and returns what that call returned,
    wrapped with the DeleteFailed message: no error exactly when the call
    returned none, and every error of the call, whatever its status code,
    as a DeleteFailed error; for the Cluster kind and for the InitBundle
    kind. *)
Theorem delete_returns_reply_wrapped
    (crc : cluster_v1alpha1.Cluster.t) (crb : initbundle_v1alpha1.InitBundle.t)
    (w : World S) :
  let reqc := {| v1.ResourceByID.Id :=
                   cluster_v1alpha1.ClusterObservation.ID
                     (cluster_v1alpha1.Cluster.AtProvider crc) |} in
  let reqb := {| v1.InitBundleRevokeRequest.Ids :=
                   [initbundle_v1alpha1.InitBundleObservation.ID
                      (initbundle_v1alpha1.InitBundle.AtProvider crb)] |} in
  let replyc := (v1.DeleteCluster reqc (remote w)).1 in
  let replyb := (v1.RevokeInitBundle reqb (remote w)).1 in
  let outc := cluster.Delete (resource.OfCluster crc) w in
  let outb := initbundle.Delete (resource.OfInitBundle crb) w in
  (outc.1.2 = errors.Wrap (v1.reply_err replyc) cluster.errDeleteFailed
   ∧ (outc.1.2 = None ↔ v1.reply_err replyc = None)
   ∧ calls outc.2 = calls w ++ [v1.CallDeleteCluster reqc])
  ∧ (outb.1.2 = errors.Wrap (v1.reply_err replyb) initbundle.errDeleteFailed
     ∧ (outb.1.2 = None ↔ v1.reply_err replyb = None)
     ∧ calls outb.2 = calls w ++ [v1.CallRevokeInitBundle reqb]).
Proof.
  cbv zeta.
  pose proof (cluster_Delete_run crc w) as Hc.
  pose proof (initbundle_Delete_run crb w) as Hb.
  cbv zeta in Hc, Hb. rewrite Hc, Hb. cbn [fst snd after calls].
  repeat split; try apply Wrap_None_iff; by intros ->%Wrap_None_iff.
Qed.

End delete.

(** C2, as stated, fails.  The first [Delete] of a Cluster that the service
    holds succeeds; the second one, against the same identifier, reaches a
    service that answers not-found, and [Delete] returns that answer as a
    DeleteFailed error.  The same holds for a bundle that is not there. *)
Lemma delete_not_found_is_reported_as_failure :
  let first := cluster.Delete (resource.OfCluster sample.linked_cluster)
                 (sample.world sample.server) in
  let second := cluster.Delete first.1.1 first.2 in
  let bundle := initbundle.Delete (resource.OfInitBundle sample.linked_bundle)
                  (sample.world sample.empty_server) in
  first.1.2 = None
  ∧ (v1.DeleteCluster {| v1.ResourceByID.Id := "7f3c" |} (remote first.2)).1
    = v1.Fail (errors.Status codes.NotFound "not found")
  ∧ second.1.2
    = Some (errors.withMessage (errors.Status codes.NotFound "not found")
                               cluster.errDeleteFailed)
  ∧ bundle.1.2
    = Some (errors.withMessage (errors.Status codes.NotFound "not found")
                               initbundle.errDeleteFailed).
Proof. cbv zeta. repeat split; reflexivity. Qed.

(** ** Disconnect *)

Section disconnect.
Context {S : Type} {svc : v1.Central S}.

(** C9, as the code has it.  On a connector to which no external client
    is bound (the connector as [Setup] builds it, before a [Connect] has
    succeeded), or an external client without connection, [Disconnect]
    returns nil and makes no call.  On one with a connection it calls
    [Close] and returns what [Close] returned, wrapped: nil exactly when
    [Close] returned nil.  The connector keeps no record of a [Close]
    already made.  This holds for both kinds. *)
Theorem disconnect_returns_close_wrapped (w : World S) (conn : ClientConn) :
  let closed_ := v1.Close (remote w) in
  let wrapped :=
    errors.Wrap (errors.Wrap closed_.1 central.ErrCloseClient)
                central.ErrCloseClient in
  (cluster.Disconnect {| cluster.external_ := None |} w = (None, w)
   ∧ cluster.Disconnect
       {| cluster.external_ := Some {| cluster.client := None |} |} w
     = (None, w)
   ∧ cluster.Disconnect
       {| cluster.external_ := Some {| cluster.client := Some conn |} |} w
     = (wrapped, after w v1.CallClose closed_.2))
  ∧ (initbundle.Disconnect {| initbundle.external_ := None |} w = (None, w)
     ∧ initbundle.Disconnect
         {| initbundle.external_ := Some {| initbundle.client := None |} |} w
       = (None, w)
     ∧ initbundle.Disconnect
         {| initbundle.external_ := Some {| initbundle.client := Some conn |} |} w
       = (wrapped, after w v1.CallClose closed_.2))
  ∧ (wrapped = None ↔ closed_.1 = None).
Proof.
  cbv zeta. unfold cluster.Disconnect, initbundle.Disconnect,
    cluster.close, initbundle.close. cbn [cluster.external_ initbundle.external_].
  repeat split; run; try done.
  - by intros ->%Wrap_None_iff%Wrap_None_iff.
  - by intros ->.
Qed.

End disconnect.

(** C9, as stated, fails for a connection that is already closed.  The
    first [Disconnect] closes the connection and returns nil; the second
    one calls [Close] again, which returns the error of a closed
    connection, and [Disconnect] returns it. *)
Lemma disconnect_of_closed_connection_fails :
  let c := {| initbundle.external_ :=
                Some {| initbundle.client :=
                          Some {| target := "central.stackrox:443" |} |} |} in
  let first := initbundle.Disconnect c (sample.world sample.server) in
  let second := initbundle.Disconnect c first.2 in
  first.1 = None
  ∧ fake.closed (remote first.2) = true
  ∧ second.1
    = Some (errors.withMessage
              (errors.withMessage fake.ErrClientConnClosing central.ErrCloseClient)
              central.ErrCloseClient)
  ∧ calls second.2 = [v1.CallClose; v1.CallClose].
Proof. cbv zeta. repeat split; reflexivity. Qed.

(** ** The mappers of the Cluster kind *)

Section mappers.
Context {tables : storage.Enums}.

(** C8.  [generateCluster] stores the Tolerations toggle negated in the
    disabled flag of a fresh tolerations config ([Tolerations = true] gives
    [Disabled = false]); [generateObservation] and [isUpToDate] read
    Tolerations back as the negation of the disabled flag of any remote
    representation; and the toggle survives the round trip, whatever the
    base. *)
Theorem tolerations_toggle_is_negated_both_ways
    (p : cluster_v1alpha1.ClusterParameters.t)
    (base : option storage.Cluster.t) (remote_ : storage.Cluster.t) :
  storage.Cluster.TolerationsConfig (cluster.generateCluster p base)
  = Some {| storage.TolerationsConfig.Disabled :=
              negb (cluster_v1alpha1.ClusterParameters.Tolerations p) |}
  ∧ storage.TolerationsConfig.GetDisabled
      (storage.Cluster.TolerationsConfig (cluster.generateCluster p base))
    = negb (cluster_v1alpha1.ClusterParameters.Tolerations p)
  ∧ cluster_v1alpha1.ClusterObservation.Tolerations
      (cluster.generateObservation remote_)
    = negb (storage.TolerationsConfig.GetDisabled
              (storage.Cluster.TolerationsConfig remote_))
  ∧ cluster_v1alpha1.ClusterParameters.Tolerations
      (cluster.observedParams remote_)
    = negb (storage.TolerationsConfig.GetDisabled
              (storage.Cluster.TolerationsConfig remote_))
  ∧ cluster_v1alpha1.ClusterObservation.Tolerations
      (cluster.generateObservation (cluster.generateCluster p base))
    = cluster_v1alpha1.ClusterParameters.Tolerations p.
Proof.
  repeat split; cbn; try done.
  by rewrite negb_involutive.
Qed.

Lemma report_all_same (fields : list (string * bool)) :
  Forall (fun f => f.2 = true) fields -> report fields = "".
Proof.
  induction 1 as [|[name same] fields Hsame _ IH]; [done|].
  cbn in Hsame. subst same. cbn. exact IH.
Qed.

Lemma EquateEmpty_refl (x : option (gmap string string)) : EquateEmpty x x = true.
Proof. unfold EquateEmpty. by apply bool_decide_eq_true_2. Qed.

Lemma Diff_refl (p : cluster_v1alpha1.ClusterParameters.t) : cluster.Diff p p = "".
Proof.
  unfold cluster.Diff. apply report_all_same.
  repeat constructor; cbn; try apply EquateEmpty_refl;
    by apply bool_decide_eq_true_2.
Qed.

(** A declared name comes back from the tables. *)
Lemma closed_tables_roundtrip (p : cluster_v1alpha1.ClusterParameters.t) :
  cluster.closed_tables tables -> cluster_v1alpha1.valid p ->
  cluster.observedParams (cluster.generateCluster p None) = p.
Proof.
  intros [Hcm Hty] [Hpcm Hpty].
  rewrite Forall_forall in Hcm, Hty.
  specialize (Hcm _ Hpcm). specialize (Hty _ Hpty).
  destruct p. unfold cluster.observedParams, cluster.generateCluster.
  cbn in *. rewrite Hcm, Hty. by rewrite negb_involutive.
Qed.

(** C4.  For a parameter set whose enumerated fields are declared variant
    names, and tables that are closed over the declared variants, the
    request mapped from the parameters with no base, read back and compared
    with the parameters, gives an empty diff: [isUpToDate] answers true
    with no text. *)
Theorem cluster_parameters_roundtrip_has_empty_diff
    (cr : cluster_v1alpha1.Cluster.t) :
  cluster.closed_tables tables ->
  cluster_v1alpha1.valid (cluster_v1alpha1.Cluster.ForProvider cr) ->
  let p := cluster_v1alpha1.Cluster.ForProvider cr in
  cluster.Diff p (cluster.observedParams (cluster.generateCluster p None)) = ""
  ∧ cluster.isUpToDate cr (cluster.generateCluster p None) = (true, "").
Proof.
  intros Htab Hvalid. cbv zeta. unfold cluster.isUpToDate.
  rewrite (closed_tables_roundtrip _ Htab Hvalid), Diff_refl.
  split; [done|]. by rewrite bool_decide_eq_false_2 by (by intros H).
Qed.

End mappers.

(** [EquateEmpty] at work: nil labels and empty labels are equal. *)
Lemma EquateEmpty_nil_empty :
  EquateEmpty None (Some ∅) = true ∧ EquateEmpty (Some ∅) None = true.
Proof. split; reflexivity. Qed.

(** The sample parameters have [Tolerations = true]: the request carries
    [Disabled = false], and the observation of that request has
    [Tolerations = true] again. *)
Lemma tolerations_true_roundtrip :
  let req := cluster.generateCluster (tables := fake.tables) sample.params None in
  storage.Cluster.TolerationsConfig req
  = Some {| storage.TolerationsConfig.Disabled := false |}
  ∧ cluster_v1alpha1.ClusterObservation.Tolerations
      (cluster.generateObservation (tables := fake.tables) req) = true.
Proof. split; reflexivity. Qed.

Lemma fake_tables_closed : cluster.closed_tables fake.tables.
Proof. split; repeat constructor. Qed.

(** The sample parameters (type KUBERNETES_CLUSTER, collection EBPF) with
    Central's tables. *)
Lemma cluster_parameters_roundtrip_has_empty_diff_witness :
  cluster.isUpToDate (tables := fake.tables) sample.new_cluster
    (cluster.generateCluster (tables := fake.tables) sample.params None)
  = (true, "").
Proof.
  apply (cluster_parameters_roundtrip_has_empty_diff (tables := fake.tables)
           sample.new_cluster).
  - exact fake_tables_closed.
  - split; cbn; set_solver.
Defined.

(** ** Update of an InitBundle *)

Section initbundle_update.
Context {S : Type} {svc : v1.Central S}.

(** The two comparisons of the guard, each against a condition stamped
    with a reading of its own, and then [Delete]. *)
Lemma initbundle_Update_run (cr : initbundle_v1alpha1.InitBundle.t) (w : World S) :
  let ready := initbundle_v1alpha1.InitBundle.GetCondition cr xpv1.TypeReady in
  let deleted := initbundle.Delete (resource.OfInitBundle cr) (tick (tick w)) in
  initbundle.Update (resource.OfInitBundle cr) w
  = if bool_decide (ready = xpv1.Creating (clock w))
    then ((resource.OfInitBundle cr, (managed.ExternalUpdate.zero, None)), tick w)
    else if bool_decide (ready = xpv1.Deleting (clock w + 1))
         then ((resource.OfInitBundle cr, (managed.ExternalUpdate.zero, None)),
               tick (tick w))
         else ((deleted.1.1,
                (managed.ExternalUpdate.zero,
                 errors.Wrap deleted.1.2 initbundle.errUpdateFailed)),
               deleted.2).
Proof.
  cbv zeta. unfold initbundle.Update. run.
  destruct (bool_decide (_ = xpv1.Creating _)); [done|]. run.
  rewrite clock_tick.
  destruct (bool_decide (_ = xpv1.Deleting _)); [done|]. run.
  by destruct (initbundle.Delete _ (tick (tick w))) as [[mg err] w'].
Qed.

Lemma SetConditions_GetExternalName (cr : initbundle_v1alpha1.InitBundle.t)
    (c : list xpv1.Condition) :
  initbundle_v1alpha1.InitBundle.GetExternalName
    (initbundle_v1alpha1.InitBundle.SetConditions cr c)
  = initbundle_v1alpha1.InitBundle.GetExternalName cr.
Proof. reflexivity. Qed.

(** After a revocation that the service honoured, the search of [Observe]
    finds nothing. *)
Lemma revoked_bundle_not_listed (cr : initbundle_v1alpha1.InitBundle.t) (s s' : S)
    (resp : v1.InitBundleMetasResponse.t) (s1 : S) :
  initbundle.revocation_honoured
    [initbundle_v1alpha1.InitBundleObservation.ID
       (initbundle_v1alpha1.InitBundle.AtProvider cr)] s s' ->
  initbundle.status_identifies cr s ->
  v1.GetInitBundles s' = (v1.Ok resp, s1) ->
  find (fun it => bool_decide (v1.InitBundleMeta.Name it
                               = initbundle_v1alpha1.InitBundle.GetExternalName cr))
       (v1.InitBundleMetasResponse.Items resp) = None.
Proof.
  intros (before & after_ & s0 & s1' & Hbefore & Hafter & Hitems) Hid Hget.
  rewrite Hget in Hafter. injection Hafter as <- <-.
  apply find_none_of_Forall. rewrite Hitems, Forall_forall.
  intros b [Hnot Hin]%list_elem_of_filter Hname.
  apply Hnot. rewrite (Hid before s0 b Hbefore Hin Hname).
  by apply list_elem_of_singleton.
Qed.

(** A Ready condition that was stamped at an earlier reading of the clock
    equals no condition stamped now, whatever it says: [Update] goes on to
    [Delete]. *)
Lemma initbundle_Update_of_stamped_record
    (cr : initbundle_v1alpha1.InitBundle.t) (w : World S) :
  xpv1.LastTransitionTime
    (initbundle_v1alpha1.InitBundle.GetCondition cr xpv1.TypeReady) < clock w ->
  let req := {| v1.InitBundleRevokeRequest.Ids :=
                  [initbundle_v1alpha1.InitBundleObservation.ID
                     (initbundle_v1alpha1.InitBundle.AtProvider cr)] |} in
  let revoke := v1.RevokeInitBundle req (remote w) in
  initbundle.Update (resource.OfInitBundle cr) w
  = ((resource.OfInitBundle
        (initbundle_v1alpha1.InitBundle.SetConditions
           cr [xpv1.Deleting (clock w + 1 + 1)]),
      (managed.ExternalUpdate.zero,
       errors.Wrap (errors.Wrap (v1.reply_err revoke.1) initbundle.errDeleteFailed)
                   initbundle.errUpdateFailed)),
     after (tick (tick (tick w))) (v1.CallRevokeInitBundle req) revoke.2).
Proof.
  intros Hbefore req revoke. rewrite initbundle_Update_run. cbv zeta.
  rewrite bool_decide_eq_false_2
    by (intros Heq; rewrite Heq in Hbefore; cbn in Hbefore; lia).
  rewrite bool_decide_eq_false_2
    by (intros Heq; rewrite Heq in Hbefore; cbn in Hbefore; lia).
  by rewrite initbundle_Delete_run.
Qed.

(** C3.  The guard of [Update] is meant to leave alone a record whose Ready
    condition says Creating or Deleting, and it does not: it compares the
    Ready condition, its transition time included, with a condition stamped
    at the time of the call.  For a record whose Ready condition is the
    Creating or the Deleting condition of an earlier reading of the clock,
    [Update] makes a remote call, the revocation of the identifier held in
    the status, and returns what that call returned; it is no no-op. *)
Theorem initbundle_update_revokes_record_in_transition
    (cr : initbundle_v1alpha1.InitBundle.t) (w : World S) (t : metav1.Time) :
  initbundle_v1alpha1.InitBundle.GetCondition cr xpv1.TypeReady = xpv1.Creating t
  ∨ initbundle_v1alpha1.InitBundle.GetCondition cr xpv1.TypeReady
    = xpv1.Deleting t ->
  t < clock w ->
  let req := {| v1.InitBundleRevokeRequest.Ids :=
                  [initbundle_v1alpha1.InitBundleObservation.ID
                     (initbundle_v1alpha1.InitBundle.AtProvider cr)] |} in
  let revoke := v1.RevokeInitBundle req (remote w) in
  let out := initbundle.Update (resource.OfInitBundle cr) w in
  calls out.2 = calls w ++ [v1.CallRevokeInitBundle req]
  ∧ remote out.2 = revoke.2
  ∧ out.1.2.2
    = errors.Wrap (errors.Wrap (v1.reply_err revoke.1) initbundle.errDeleteFailed)
                  initbundle.errUpdateFailed.
Proof.
  intros Hready Ht. cbv zeta.
  rewrite initbundle_Update_of_stamped_record; [done|].
  by destruct Hready as [-> | ->].
Qed.

(** What holds of the claim: once the revocation has succeeded on a service
    that honours it, [Update] has succeeded and the next [Observe] returns
    [ResourceExists = false] and no error. *)
Lemma initbundle_Update_revoked_is_absent_next
    (cr : initbundle_v1alpha1.InitBundle.t) (w : World S) :
  xpv1.LastTransitionTime
    (initbundle_v1alpha1.InitBundle.GetCondition cr xpv1.TypeReady) < clock w ->
  let req := {| v1.InitBundleRevokeRequest.Ids :=
                  [initbundle_v1alpha1.InitBundleObservation.ID
                     (initbundle_v1alpha1.InitBundle.AtProvider cr)] |} in
  let revoke := v1.RevokeInitBundle req (remote w) in
  let out := initbundle.Update (resource.OfInitBundle cr) w in
  let next := initbundle.Observe out.1.1 out.2 in
  v1.reply_err revoke.1 = None ->
  initbundle.revocation_honoured
    (v1.InitBundleRevokeRequest.Ids req) (remote w) revoke.2 ->
  initbundle.status_identifies cr (remote w) ->
  out.1.2.2 = None
  ∧ next.1.2.2 = None
  ∧ managed.ExternalObservation.ResourceExists next.1.2.1 = false.
Proof.
  intros Hbefore req revoke out next Hok Hhon Hid. subst next out.
  rewrite (initbundle_Update_of_stamped_record cr w Hbefore). cbv zeta.
  fold req. fold revoke. rewrite Hok. cbn [fst snd]. split; [done|].
  pose proof Hhon as (before & after_ & s0 & s1 & Hbefore' & Hafter & Hitems).
  destruct (initbundle_Observe_found
              (initbundle_v1alpha1.InitBundle.SetConditions
                 cr [xpv1.Deleting (clock w + 1 + 1)])
              (after (tick (tick (tick w))) (v1.CallRevokeInitBundle req) revoke.2)
              after_ s1 Hafter) as [Herr Hex].
  split; [exact Herr|]. rewrite Hex, SetConditions_GetExternalName.
  rewrite (revoked_bundle_not_listed cr (remote w) revoke.2 after_ s1 Hhon Hid Hafter).
  apply bool_decide_eq_false_2. by intros [? ?].
Qed.

End initbundle_update.

(** A bundle is created on an empty service: the record is linked and its
    Ready condition says Creating.  The [Update] that comes next revokes
    the bundle just created. *)
Lemma initbundle_update_revokes_record_in_transition_witness :
  let created := initbundle.Create (resource.OfInitBundle sample.new_bundle)
                   (sample.world sample.empty_server) in
  let out := initbundle.Update created.1.1 created.2 in
  created.1.2.2 = None
  ∧ calls out.2
    = [v1.CallGenerateInitBundle
         {| v1.InitBundleGenRequest.Name := "prod-bundle" |};
       v1.CallRevokeInitBundle
         {| v1.InitBundleRevokeRequest.Ids := ["id-prod-bundle"] |}]
  ∧ fake.bundles (remote out.2) = [].
Proof.
  cbv zeta. split; [reflexivity|].
  destruct (initbundle_update_revokes_record_in_transition
              (initbundle_v1alpha1.InitBundle.SetExternalName
                 (initbundle_v1alpha1.InitBundle.setAtProvider
                    (initbundle_v1alpha1.InitBundle.SetConditions
                       sample.new_bundle [xpv1.Creating 200])
                    (initbundle.generateObservation
                       {| v1.InitBundleMeta.Id := "id-prod-bundle";
                          v1.InitBundleMeta.Name := "prod-bundle";
                          v1.InitBundleMeta.ImpactedClusters := [];
                          v1.InitBundleMeta.CreatedAt := None;
                          v1.InitBundleMeta.CreatedBy := None;
                          v1.InitBundleMeta.ExpiresAt := None |}))
                 "prod-bundle")
              (initbundle.Create (resource.OfInitBundle sample.new_bundle)
                 (sample.world sample.empty_server)).2
              200)
    as (Hcalls & Hremote & _); [left; reflexivity | reflexivity |].
  split; [exact Hcalls|]. exact (f_equal fake.bundles Hremote).
Defined.

(** * Further properties of the controllers *)

(** ** Conditions: set, then get *)

Section conditions.

Lemma Equal_refl (c : xpv1.Condition) : xpv1.Equal c c = true.
Proof. unfold xpv1.Equal. by rewrite !bool_decide_eq_true_2. Qed.

Lemma Equal_Type (c d : xpv1.Condition) :
  xpv1.Equal c d = true -> xpv1.Type_ c = xpv1.Type_ d.
Proof.
  unfold xpv1.Equal. intros H.
  repeat (apply andb_prop in H as [H ?]). by apply bool_decide_eq_true in H.
Qed.

Lemma GetCondition_absent (conds : list xpv1.Condition) (ct : string) :
  existsb (fun c => bool_decide (xpv1.Type_ c = ct)) conds = false ->
  xpv1.GetCondition conds ct
  = {| xpv1.Type_ := ct; xpv1.Status := xpv1.ConditionUnknown;
       xpv1.LastTransitionTime := metav1.zero; xpv1.Reason := "";
       xpv1.Message := "" |}.
Proof.
  induction conds as [|c conds IH]; [done|]. cbn.
  case_bool_decide; [done|]. exact IH.
Qed.

(** The condition of the type of [new], once [new] is set: the one that
    was there when it says the same as [new] (its transition time is
    kept), [new] otherwise. *)
Lemma GetCondition_setCondition (conds : list xpv1.Condition)
    (new : xpv1.Condition) :
  xpv1.GetCondition (xpv1.setCondition conds new) (xpv1.Type_ new)
  = if existsb (fun c => bool_decide (xpv1.Type_ c = xpv1.Type_ new)) conds
    then (if xpv1.Equal (xpv1.GetCondition conds (xpv1.Type_ new)) new
          then xpv1.GetCondition conds (xpv1.Type_ new) else new)
    else new.
Proof.
  unfold xpv1.setCondition.
  destruct (existsb _ conds) eqn:Hex.
  - induction conds as [|c conds IH]; [done|]. cbn in *.
    case_bool_decide as Hty.
    + destruct (xpv1.Equal c new) eqn:Heq; cbn.
      * by rewrite bool_decide_eq_true_2.
      * by rewrite bool_decide_eq_true_2.
    + cbn. rewrite bool_decide_eq_false_2 by done. apply IH.
      by rewrite orb_false_l in Hex.
  - induction conds as [|c conds IH]; cbn in *.
    + by rewrite bool_decide_eq_true_2.
    + apply orb_false_elim in Hex as [Hc Hex].
      rewrite Hc. by apply IH.
Qed.

Lemma GetCondition_setCondition_other (conds : list xpv1.Condition)
    (new : xpv1.Condition) (ct : string) :
  ct ≠ xpv1.Type_ new ->
  xpv1.GetCondition (xpv1.setCondition conds new) ct = xpv1.GetCondition conds ct.
Proof.
  intros Hne. unfold xpv1.setCondition.
  destruct (existsb _ conds).
  - induction conds as [|c conds IH]; [done|]. cbn.
    destruct (decide (xpv1.Type_ c = xpv1.Type_ new)) as [Hty|Hty].
    + rewrite (bool_decide_eq_true_2 _ Hty).
      rewrite (bool_decide_eq_false_2 (xpv1.Type_ c = ct)) by congruence.
      destruct (xpv1.Equal c new); cbn;
        rewrite bool_decide_eq_false_2 by congruence; exact IH.
    + rewrite (bool_decide_eq_false_2 _ Hty). cbn.
      case_bool_decide; [done | exact IH].
  - induction conds as [|c conds IH]; cbn.
    + by rewrite bool_decide_eq_false_2 by done.
    + case_bool_decide; [done | exact IH].
Qed.

(** For a condition that does not say Unknown, the rule does not depend on
    whether a condition of the type was there. *)
Lemma GetCondition_setCondition_known (conds : list xpv1.Condition)
    (new : xpv1.Condition) :
  xpv1.Status new ≠ xpv1.ConditionUnknown ->
  xpv1.GetCondition (xpv1.setCondition conds new) (xpv1.Type_ new)
  = if xpv1.Equal (xpv1.GetCondition conds (xpv1.Type_ new)) new
    then xpv1.GetCondition conds (xpv1.Type_ new) else new.
Proof.
  intros Hknown. rewrite GetCondition_setCondition.
  destruct (existsb _ conds) eqn:Hex; [done|].
  rewrite (GetCondition_absent _ _ Hex). unfold xpv1.Equal. cbn.
  rewrite (bool_decide_eq_false_2 (xpv1.ConditionUnknown = _)) by done.
  by rewrite andb_false_r.
Qed.

End conditions.

(** ** More on Observe *)

Section observe_more.
Context {S : Type} {svc : v1.Central S} {tables : storage.Enums}.

Lemma getInitBundle_fail (cr : initbundle_v1alpha1.InitBundle.t) (w : World S)
    (e : errors.error) (s : S) :
  v1.GetInitBundles (remote w) = (v1.Fail e, s) ->
  initbundle.getInitBundle cr w
  = ((None, Some (errors.withMessage e initbundle.errObserveFailed)),
     after w v1.CallGetInitBundles s).
Proof. intros H. unfold initbundle.getInitBundle. run. by rewrite H. Qed.

(** X1.  A list call that fails makes [Observe] return an error and the
    zero observation; the record is returned as it was.  The error of the
    Cluster kind reads "cannot observe cluster: cannot get cluster: ...";
    that of the InitBundle kind carries the observe message twice, its
    get message is not used.  The cause of either is the cause of the error
    of the list call. *)
Theorem observe_list_failure_is_reported
    (crc : cluster_v1alpha1.Cluster.t) (wc : World S)
    (ec : errors.error) (sc : S)
    (crb : initbundle_v1alpha1.InitBundle.t) (wb : World S)
    (eb : errors.error) (sb : S) :
  v1.GetClusters (remote wc) = (v1.Fail ec, sc) ->
  v1.GetInitBundles (remote wb) = (v1.Fail eb, sb) ->
  let errc := errors.withMessage (errors.withMessage ec "cannot get cluster")
                                 "cannot observe cluster" in
  let errb := errors.withMessage
                (errors.withMessage eb "cannot observe init bundle")
                "cannot observe init bundle" in
  (cluster.Observe (resource.OfCluster crc) wc
   = ((resource.OfCluster crc, (managed.ExternalObservation.zero, Some errc)),
      after wc v1.CallGetClusters sc)
   ∧ errors.Cause errc = errors.Cause ec
   ∧ errors.Error errc
     = "cannot observe cluster: cannot get cluster: " +:+ errors.Error ec)
  ∧ (initbundle.Observe (resource.OfInitBundle crb) wb
     = ((resource.OfInitBundle crb, (managed.ExternalObservation.zero, Some errb)),
        after wb v1.CallGetInitBundles sb)
     ∧ errors.Cause errb = errors.Cause eb
     ∧ errors.Error errb
       = "cannot observe init bundle: cannot observe init bundle: "
         +:+ errors.Error eb).
Proof.
  intros Hc Hb. cbv zeta. split; (split; [|done]).
  - unfold cluster.Observe. run. by rewrite (getCluster_fail crc wc ec sc Hc).
  - unfold initbundle.Observe. run.
    by rewrite (getInitBundle_fail crb wb eb sb Hb).
Qed.

(** X2.  [Observe] of either kind makes one call, the list call, whatever
    comes back: the call log grows by that call alone, and the service is
    left in the state the list call left it in.  The clock is read once,
    to stamp the Ready condition, when the resource is found, and not at
    all otherwise. *)
Theorem observe_only_lists
    (crc : cluster_v1alpha1.Cluster.t)
    (crb : initbundle_v1alpha1.InitBundle.t) (w : World S) :
  let outc := cluster.Observe (resource.OfCluster crc) w in
  let outb := initbundle.Observe (resource.OfInitBundle crb) w in
  (calls outc.2 = calls w ++ [v1.CallGetClusters]
   ∧ remote outc.2 = (v1.GetClusters (remote w)).2
   ∧ clock outc.2
     = if managed.ExternalObservation.ResourceExists outc.1.2.1
       then clock w + 1 else clock w)
  ∧ (calls outb.2 = calls w ++ [v1.CallGetInitBundles]
     ∧ remote outb.2 = (v1.GetInitBundles (remote w)).2
     ∧ clock outb.2
       = if managed.ExternalObservation.ResourceExists outb.1.2.1
         then clock w + 1 else clock w).
Proof.
  cbv zeta. split.
  - unfold cluster.Observe, cluster.getCluster. run.
    destruct (v1.GetClusters (remote w)) as [[resp|e] s]; run; [|done].
    destruct (find _ _) as [c|]; run; [|done].
    by destruct (cluster.isUpToDate _ c).
  - unfold initbundle.Observe, initbundle.getInitBundle. run.
    destruct (v1.GetInitBundles (remote w)) as [[resp|e] s]; run; [|done].
    destruct (find _ _) as [b|]; run; [|done].
    by destruct (initbundle.isUpToDate _ b).
Qed.

(** X3.  When the fetch finds [found], [Observe] of a Cluster writes the
    projection of [found] to the status, whose name is then the external
    name; metadata and parameters are as they were; of the conditions only
    Ready changes: it is Available as of now, unless it said Available
    already, in which case it keeps its transition time; and the answer
    carries what [isUpToDate] says of the parameters against [found]. *)
Theorem cluster_observe_found_projects_entry
    (cr : cluster_v1alpha1.Cluster.t) (w : World S)
    (resp : v1.ClustersList.t) (s : S) (found : storage.Cluster.t) :
  v1.GetClusters (remote w) = (v1.Ok resp, s) ->
  find (fun it => bool_decide (storage.Cluster.Name it
                               = cluster_v1alpha1.Cluster.GetExternalName cr))
       (v1.ClustersList.Clusters resp) = Some found ->
  let out := cluster.Observe (resource.OfCluster cr) w in
  let old := cluster_v1alpha1.Cluster.GetCondition cr xpv1.TypeReady in
  ∃ cr',
    out.1.1 = resource.OfCluster cr'
    ∧ out.1.2.2 = None
    ∧ cluster_v1alpha1.Cluster.AtProvider cr' = cluster.generateObservation found
    ∧ cluster_v1alpha1.ClusterObservation.Name
        (cluster_v1alpha1.Cluster.AtProvider cr')
      = cluster_v1alpha1.Cluster.GetExternalName cr
    ∧ cluster_v1alpha1.Cluster.ObjectMeta cr'
      = cluster_v1alpha1.Cluster.ObjectMeta cr
    ∧ cluster_v1alpha1.Cluster.ForProvider cr'
      = cluster_v1alpha1.Cluster.ForProvider cr
    ∧ cluster_v1alpha1.Cluster.GetCondition cr' xpv1.TypeReady
      = (if xpv1.Equal old (xpv1.Available (clock w)) then old
         else xpv1.Available (clock w))
    ∧ (∀ ct, ct ≠ xpv1.TypeReady ->
         cluster_v1alpha1.Cluster.GetCondition cr' ct
         = cluster_v1alpha1.Cluster.GetCondition cr ct)
    ∧ (managed.ExternalObservation.ResourceExists out.1.2.1,
       managed.ExternalObservation.ResourceUpToDate out.1.2.1,
       managed.ExternalObservation.Diff out.1.2.1)
      = (true, (cluster.isUpToDate cr found).1, (cluster.isUpToDate cr found).2).
Proof.
  intros Hget Hfind. cbv zeta. unfold cluster.Observe. run.
  rewrite (getCluster_ok cr w resp s Hget), Hfind. run.
  assert (Hup : cluster.isUpToDate
                  (cluster_v1alpha1.Cluster.SetConditions
                     (cluster_v1alpha1.Cluster.setAtProvider
                        cr (cluster.generateObservation found))
                     [xpv1.Available (clock (after w v1.CallGetClusters s))])
                  found
                = cluster.isUpToDate cr found) by reflexivity.
  rewrite Hup. destruct (cluster.isUpToDate cr found) as [up diff]. run.
  eexists. split; [reflexivity|]. split; [done|]. split; [done|].
  split.
  { cbn. apply find_some in Hfind as [_ Hname].
    by apply bool_decide_eq_true in Hname. }
  split; [done|]. split; [done|]. split.
  { unfold cluster_v1alpha1.Cluster.GetCondition. cbn.
    by apply (GetCondition_setCondition_known _ (xpv1.Available (clock w))). }
  split; [|done].
  intros ct Hct. unfold cluster_v1alpha1.Cluster.GetCondition. cbn.
  by apply (GetCondition_setCondition_other _ (xpv1.Available (clock w))).
Qed.

End observe_more.

(** With the service down, both list calls fail. *)
Lemma observe_list_failure_is_reported_witness :
  let down := {| fake.clusters := []; fake.bundles := []; fake.closed := false;
                 fake.outage := Some (errors.Status codes.Unavailable "unavailable");
                 fake.write_fault := None |} in
  errors.Error <$> (cluster.Observe (tables := fake.tables)
                      (resource.OfCluster sample.linked_cluster)
                      (sample.world down)).1.2.2
  = Some "cannot observe cluster: cannot get cluster: rpc error: code = Unavailable desc = unavailable"
  ∧ errors.Error <$> (initbundle.Observe
                        (resource.OfInitBundle sample.linked_bundle)
                        (sample.world down)).1.2.2
    = Some "cannot observe init bundle: cannot observe init bundle: rpc error: code = Unavailable desc = unavailable".
Proof.
  cbv zeta.
  destruct (observe_list_failure_is_reported (tables := fake.tables)
              sample.linked_cluster
              (sample.world
                 {| fake.clusters := []; fake.bundles := []; fake.closed := false;
                    fake.outage := Some (errors.Status codes.Unavailable "unavailable");
                    fake.write_fault := None |})
              (errors.Status codes.Unavailable "unavailable")
              {| fake.clusters := []; fake.bundles := []; fake.closed := false;
                 fake.outage := Some (errors.Status codes.Unavailable "unavailable");
                 fake.write_fault := None |}
              sample.linked_bundle
              (sample.world
                 {| fake.clusters := []; fake.bundles := []; fake.closed := false;
                    fake.outage := Some (errors.Status codes.Unavailable "unavailable");
                    fake.write_fault := None |})
              (errors.Status codes.Unavailable "unavailable")
              {| fake.clusters := []; fake.bundles := []; fake.closed := false;
                 fake.outage := Some (errors.Status codes.Unavailable "unavailable");
                 fake.write_fault := None |})
    as [(Hc & _ & _) (Hb & _ & _)]; [reflexivity | reflexivity |].
  rewrite Hc, Hb. split; reflexivity.
Defined.

(** The linked Cluster was Available since time 100; observed again at time
    200 it still says so, since time 100. *)
Lemma cluster_observe_found_projects_entry_witness :
  ∃ cr',
    (cluster.Observe (tables := fake.tables)
       (resource.OfCluster sample.linked_cluster)
       (sample.world sample.server)).1.1 = resource.OfCluster cr'
    ∧ cluster_v1alpha1.ClusterObservation.ID
        (cluster_v1alpha1.Cluster.AtProvider cr') = "7f3c"
    ∧ xpv1.LastTransitionTime
        (cluster_v1alpha1.Cluster.GetCondition cr' xpv1.TypeReady) = 100.
Proof.
  destruct (cluster_observe_found_projects_entry (tables := fake.tables)
              sample.linked_cluster (sample.world sample.server)
              {| v1.ClustersList.Clusters := fake.clusters sample.server |}
              sample.server sample.remote_cluster)
    as (cr' & Hout & _ & Hat & _ & _ & _ & Hready & _);
    [reflexivity | reflexivity |].
  exists cr'. split; [exact Hout|]. rewrite Hat, Hready. split; reflexivity.
Defined.

Section observe_order.
Context {S : Type} {svc : v1.Central S} {tables : storage.Enums}.

Lemma is_Some_find_iff_Exists {A : Type} (P : A -> Prop)
    `{!∀ x, Decision (P x)} (l : list A) :
  is_Some (find (fun x => bool_decide (P x)) l) ↔ Exists P l.
Proof.
  split.
  - intros [x Hf]. apply find_some in Hf as [Hin Hp].
    apply Exists_exists. exists x.
    split; [by apply list_elem_of_In | by apply bool_decide_eq_true in Hp].
  - intros Hex. destruct (find_some_of_Exists P l Hex) as (x & Hf & _).
    by exists x.
Qed.

(** X4.  Whether [Observe] finds the resource does not depend on the order
    in which the service lists its collection: two listings that are
    permutations of each other give the same [ResourceExists], for the
    Cluster kind and for the InitBundle kind. *)
Theorem observe_exists_ignores_listing_order
    (crc : cluster_v1alpha1.Cluster.t)
    (crb : initbundle_v1alpha1.InitBundle.t) (w1 w2 : World S)
    (c1 c2 : v1.ClustersList.t) (b1 b2 : v1.InitBundleMetasResponse.t)
    (sc1 sc2 sb1 sb2 : S) :
  v1.GetClusters (remote w1) = (v1.Ok c1, sc1) ->
  v1.GetClusters (remote w2) = (v1.Ok c2, sc2) ->
  v1.ClustersList.Clusters c1 ≡ₚ v1.ClustersList.Clusters c2 ->
  v1.GetInitBundles (remote w1) = (v1.Ok b1, sb1) ->
  v1.GetInitBundles (remote w2) = (v1.Ok b2, sb2) ->
  v1.InitBundleMetasResponse.Items b1 ≡ₚ v1.InitBundleMetasResponse.Items b2 ->
  managed.ExternalObservation.ResourceExists
    (cluster.Observe (resource.OfCluster crc) w1).1.2.1
  = managed.ExternalObservation.ResourceExists
      (cluster.Observe (resource.OfCluster crc) w2).1.2.1
  ∧ managed.ExternalObservation.ResourceExists
      (initbundle.Observe (resource.OfInitBundle crb) w1).1.2.1
    = managed.ExternalObservation.ResourceExists
        (initbundle.Observe (resource.OfInitBundle crb) w2).1.2.1.
Proof.
  intros Hc1 Hc2 Hpc Hb1 Hb2 Hpb.
  destruct (cluster_Observe_found crc w1 c1 sc1 Hc1) as [_ ->].
  destruct (cluster_Observe_found crc w2 c2 sc2 Hc2) as [_ ->].
  destruct (initbundle_Observe_found crb w1 b1 sb1 Hb1) as [_ ->].
  destruct (initbundle_Observe_found crb w2 b2 sb2 Hb2) as [_ ->].
  split; apply bool_decide_ext; rewrite !is_Some_find_iff_Exists.
  - by rewrite Hpc.
  - by rewrite Hpb.
Qed.

(** X5.  When the fetch finds [found], [Observe] of an InitBundle writes the
    projection of [found] to the status (its identifier is the one a later
    [Delete] revokes), and reports the bundle up to date exactly when the
    name in the parameters is the external name: a bundle drifts only by
    being renamed in the parameters. *)
Theorem initbundle_observe_up_to_date_iff_name_is_external_name
    (cr : initbundle_v1alpha1.InitBundle.t) (w : World S)
    (resp : v1.InitBundleMetasResponse.t) (s : S) (found : v1.InitBundleMeta.t) :
  v1.GetInitBundles (remote w) = (v1.Ok resp, s) ->
  find (fun it => bool_decide (v1.InitBundleMeta.Name it
                               = initbundle_v1alpha1.InitBundle.GetExternalName cr))
       (v1.InitBundleMetasResponse.Items resp) = Some found ->
  let out := initbundle.Observe (resource.OfInitBundle cr) w in
  let same_name :=
    initbundle_v1alpha1.InitBundleParameters.Name
      (initbundle_v1alpha1.InitBundle.ForProvider cr)
    = initbundle_v1alpha1.InitBundle.GetExternalName cr in
  out.1.2.2 = None
  ∧ managed.ExternalObservation.ResourceExists out.1.2.1 = true
  ∧ managed.ExternalObservation.ResourceUpToDate out.1.2.1
    = bool_decide same_name
  ∧ (managed.ExternalObservation.Diff out.1.2.1 = "" ↔ same_name)
  ∧ ∃ cr',
      out.1.1 = resource.OfInitBundle cr'
      ∧ initbundle_v1alpha1.InitBundle.AtProvider cr'
        = initbundle.generateObservation found
      ∧ initbundle_v1alpha1.InitBundleObservation.ID
          (initbundle_v1alpha1.InitBundle.AtProvider cr')
        = v1.InitBundleMeta.Id found
      ∧ initbundle_v1alpha1.InitBundle.ObjectMeta cr'
        = initbundle_v1alpha1.InitBundle.ObjectMeta cr.
Proof.
  intros Hget Hfind. cbv zeta. unfold initbundle.Observe. run.
  rewrite (getInitBundle_ok cr w resp s Hget), Hfind. run.
  apply find_some in Hfind as [_ Hname]. apply bool_decide_eq_true in Hname.
  unfold initbundle.isUpToDate, initbundle.Diff, report.
  cbn [initbundle_v1alpha1.InitBundle.ForProvider
         initbundle_v1alpha1.InitBundle.SetConditions
         initbundle_v1alpha1.InitBundle.setAtProvider
         initbundle_v1alpha1.InitBundleParameters.Name foldr].
  rewrite Hname.
  destruct (decide (initbundle_v1alpha1.InitBundleParameters.Name
                      (initbundle_v1alpha1.InitBundle.ForProvider cr)
                    = initbundle_v1alpha1.InitBundle.GetExternalName cr))
    as [Heq|Hne].
  - rewrite !(bool_decide_eq_true_2 _ Heq). cbn.
    repeat split; try done. by eexists.
  - rewrite !(bool_decide_eq_false_2 _ Hne). cbn.
    repeat split; try done. by eexists.
Qed.

End observe_order.

(** The sample service and the same service listing its clusters the other
    way round. *)
Lemma observe_exists_ignores_listing_order_witness :
  let swapped :=
    {| fake.clusters := [sample.remote_cluster; sample.other_cluster];
       fake.bundles := [sample.remote_bundle]; fake.closed := false;
       fake.outage := None; fake.write_fault := None |} in
  managed.ExternalObservation.ResourceExists
    (cluster.Observe (tables := fake.tables)
       (resource.OfCluster sample.linked_cluster)
       (sample.world sample.server)).1.2.1
  = managed.ExternalObservation.ResourceExists
      (cluster.Observe (tables := fake.tables)
         (resource.OfCluster sample.linked_cluster)
         (sample.world swapped)).1.2.1.
Proof.
  cbv zeta.
  apply (observe_exists_ignores_listing_order (tables := fake.tables)
           sample.linked_cluster sample.linked_bundle
           (sample.world sample.server)
           (sample.world
              {| fake.clusters := [sample.remote_cluster; sample.other_cluster];
                 fake.bundles := [sample.remote_bundle]; fake.closed := false;
                 fake.outage := None; fake.write_fault := None |})
           {| v1.ClustersList.Clusters :=
                [sample.other_cluster; sample.remote_cluster] |}
           {| v1.ClustersList.Clusters :=
                [sample.remote_cluster; sample.other_cluster] |}
           {| v1.InitBundleMetasResponse.Items := [sample.remote_bundle] |}
           {| v1.InitBundleMetasResponse.Items := [sample.remote_bundle] |}
           sample.server
           {| fake.clusters := [sample.remote_cluster; sample.other_cluster];
              fake.bundles := [sample.remote_bundle]; fake.closed := false;
              fake.outage := None; fake.write_fault := None |}
           sample.server
           {| fake.clusters := [sample.remote_cluster; sample.other_cluster];
              fake.bundles := [sample.remote_bundle]; fake.closed := false;
              fake.outage := None; fake.write_fault := None |});
    try reflexivity.
  apply perm_swap.
Defined.

(** The linked bundle is named as the parameters name it: up to date. *)
Lemma initbundle_observe_up_to_date_iff_name_is_external_name_witness :
  managed.ExternalObservation.ResourceUpToDate
    (initbundle.Observe (resource.OfInitBundle sample.linked_bundle)
       (sample.world sample.server)).1.2.1 = true.
Proof.
  destruct (initbundle_observe_up_to_date_iff_name_is_external_name
              sample.linked_bundle (sample.world sample.server)
              {| v1.InitBundleMetasResponse.Items := [sample.remote_bundle] |}
              sample.server sample.remote_bundle)
    as (_ & _ & Hup & _); [reflexivity | reflexivity |].
  rewrite Hup. reflexivity.
Defined.

(** ** More on the mappers of the Cluster kind *)

Section mappers_more.
Context {tables : storage.Enums}.

Lemma report_empty_iff (fields : list (string * bool)) :
  report fields = "" ↔ Forall (fun f => f.2 = true) fields.
Proof.
  split; [|apply report_all_same].
  induction fields as [|[name same] fields IH]; [by constructor|].
  cbn. destruct same; [|discriminate].
  intros H. constructor; [done | by apply IH].
Qed.

Lemma EquateEmpty_true_iff (x y : option (gmap string string)) :
  EquateEmpty x y = true ↔ default ∅ x = default ∅ y.
Proof. unfold EquateEmpty. apply bool_decide_eq_true. Qed.

Lemma Diff_empty_iff (x y : cluster_v1alpha1.ClusterParameters.t) :
  cluster.Diff x y = "" ↔ cluster.same_parameters x y.
Proof.
  unfold cluster.Diff, cluster.same_parameters. rewrite report_empty_iff.
  rewrite !Forall_cons, Forall_nil. cbn [snd].
  rewrite !bool_decide_eq_true, EquateEmpty_true_iff. tauto.
Qed.

(** X6.  [isUpToDate] answers true exactly when the desired parameters and
    the parameters read back from the remote representation agree on every
    field, nil labels and empty labels counting as the same; it answers
    true exactly when it returns no text, and the text of a difference
    starts with the header line. *)
Theorem isUpToDate_true_iff_same_parameters
    (cr : cluster_v1alpha1.Cluster.t) (observed : storage.Cluster.t) :
  let answer := cluster.isUpToDate cr observed in
  (answer.1 = true
   ↔ cluster.same_parameters (cluster_v1alpha1.Cluster.ForProvider cr)
                              (cluster.observedParams observed))
  ∧ (answer.1 = true ↔ answer.2 = "")
  ∧ (answer.1 = false ->
     ∃ diff, diff ≠ ""
             ∧ answer.2 = "Observed difference in cluster" +:+ newline +:+ diff).
Proof.
  cbv zeta. unfold cluster.isUpToDate. rewrite <- Diff_empty_iff.
  case_bool_decide as Hd; cbn [fst snd].
  - split; [split; [discriminate | by intros ?]|].
    split; [split; discriminate|].
    intros _. by eexists.
  - repeat split; done.
Qed.

Lemma observedParams_generateCluster (p : cluster_v1alpha1.ClusterParameters.t)
    (base : option storage.Cluster.t) :
  cluster.closed_tables tables -> cluster_v1alpha1.valid p ->
  cluster.observedParams (cluster.generateCluster p base) = p.
Proof.
  intros [Hcm Hty] [Hpcm Hpty].
  rewrite Forall_forall in Hcm, Hty.
  specialize (Hcm _ Hpcm). specialize (Hty _ Hpty).
  destruct p. unfold cluster.observedParams, cluster.generateCluster.
  cbn in *. rewrite Hcm, Hty. by rewrite negb_involutive.
Qed.

(** X7.  Over any base, the request [generateCluster] builds from valid
    parameters reads back as those parameters, so a service that stores the
    replace request of [Update] as sent is then seen up to date; mapping the
    same parameters onto the request again changes nothing; and what is
    read back never depends on the base. *)
Theorem generateCluster_reads_back_over_any_base
    (cr : cluster_v1alpha1.Cluster.t) (base other : option storage.Cluster.t) :
  cluster.closed_tables tables ->
  cluster_v1alpha1.valid (cluster_v1alpha1.Cluster.ForProvider cr) ->
  let p := cluster_v1alpha1.Cluster.ForProvider cr in
  cluster.isUpToDate cr (cluster.generateCluster p base) = (true, "")
  ∧ cluster.generateCluster p (Some (cluster.generateCluster p base))
    = cluster.generateCluster p base
  ∧ cluster.observedParams (cluster.generateCluster p base)
    = cluster.observedParams (cluster.generateCluster p other).
Proof.
  intros Htab Hvalid. cbv zeta. split; [|split].
  - unfold cluster.isUpToDate.
    rewrite (observedParams_generateCluster _ base Htab Hvalid), Diff_refl.
    by rewrite bool_decide_eq_false_2 by (by intros H).
  - reflexivity.
  - reflexivity.
Qed.

(** X8.  Names and codes outside the tables.  A parameter name that the
    value table does not hold is sent as code 0, and a code that the name
    table does not hold is observed as the empty name; neither stops the
    mapping.  A type name outside the value table that is not the name of
    code 0 therefore always reads back different: [isUpToDate] is false for
    the request just built from it. *)
Theorem names_outside_the_tables
    (cr : cluster_v1alpha1.Cluster.t) (base : option storage.Cluster.t)
    (observed : storage.Cluster.t) :
  let p := cluster_v1alpha1.Cluster.ForProvider cr in
  (storage.ClusterType_value !! cluster_v1alpha1.ClusterParameters.Type_ p = None ->
   storage.Cluster.Type_ (cluster.generateCluster p base) = 0)
  ∧ (storage.CollectionMethod_value
       !! cluster_v1alpha1.ClusterParameters.CollectionMethod p = None ->
     storage.Cluster.CollectionMethod (cluster.generateCluster p base) = 0)
  ∧ (storage.ClusterType_name !! storage.Cluster.Type_ observed = None ->
     cluster_v1alpha1.ClusterObservation.Type_ (cluster.generateObservation observed)
     = ""
     ∧ cluster_v1alpha1.ClusterParameters.Type_ (cluster.observedParams observed)
       = "")
  ∧ (storage.ManagerType_name !! storage.Cluster.ManagedBy observed = None ->
     cluster_v1alpha1.ClusterObservation.ManagedBy
       (cluster.generateObservation observed) = "")
  ∧ (storage.ClusterType_value !! cluster_v1alpha1.ClusterParameters.Type_ p = None ->
     storage.name_at storage.ClusterType_name 0
     ≠ cluster_v1alpha1.ClusterParameters.Type_ p ->
     (cluster.isUpToDate cr (cluster.generateCluster p base)).1 = false).
Proof.
  cbv zeta. split; [|split; [|split; [|split]]].
  - intros H. cbn. unfold storage.value_at. by rewrite H.
  - intros H. cbn. unfold storage.value_at. by rewrite H.
  - intros H. cbn. unfold storage.name_at. by rewrite H.
  - intros H. cbn. unfold storage.name_at. by rewrite H.
  - intros Hnone Hzero. unfold cluster.isUpToDate.
    case_bool_decide as Hd; [done|]. exfalso. apply Hzero.
    apply Diff_empty_iff in Hd.
    destruct Hd as (_&_&_&_&_&_&_&_&_&_&_&Hty).
    cbn in Hty. unfold storage.value_at in Hty. rewrite Hnone in Hty.
    cbn in Hty. by rewrite Hty.
Qed.

End mappers_more.

(** The linked Cluster over the remote cluster it was fetched as. *)
Lemma generateCluster_reads_back_over_any_base_witness :
  cluster.isUpToDate (tables := fake.tables) sample.linked_cluster
    (cluster.generateCluster (tables := fake.tables) sample.params
       (Some sample.remote_cluster))
  = (true, "").
Proof.
  apply (generateCluster_reads_back_over_any_base (tables := fake.tables)
           sample.linked_cluster (Some sample.remote_cluster) None).
  - exact fake_tables_closed.
  - split; cbn; set_solver.
Defined.

(** The type "EKS_CLUSTER" is not in Central's tables: it is sent as code 0,
    which reads back as "GENERIC_CLUSTER", a difference. *)
Lemma names_outside_the_tables_witness :
  let p := cluster_v1alpha1.Cluster.ForProvider sample.undeclared_type_cluster in
  storage.Cluster.Type_ (cluster.generateCluster (tables := fake.tables) p None) = 0
  ∧ (cluster.isUpToDate (tables := fake.tables) sample.undeclared_type_cluster
       (cluster.generateCluster (tables := fake.tables) p None)).1 = false.
Proof.
  cbv zeta.
  destruct (names_outside_the_tables (tables := fake.tables)
              sample.undeclared_type_cluster None storage.Cluster.zero)
    as (Hcode & _ & _ & _ & Hdrift).
  split.
  - apply Hcode. reflexivity.
  - apply Hdrift; [reflexivity | discriminate].
Defined.

(** ** More on Create, Update and Delete *)

Section writes_more.
Context {S : Type} {svc : v1.Central S} {tables : storage.Enums}.

Lemma cluster_GetExternalName_SetExternalName
    (cr : cluster_v1alpha1.Cluster.t) (name : string) :
  cluster_v1alpha1.Cluster.GetExternalName
    (cluster_v1alpha1.Cluster.SetExternalName cr name) = name.
Proof.
  unfold cluster_v1alpha1.Cluster.GetExternalName, meta.GetExternalName. cbn.
  by rewrite lookup_insert_eq.
Qed.

Lemma initbundle_GetExternalName_SetExternalName
    (cr : initbundle_v1alpha1.InitBundle.t) (name : string) :
  initbundle_v1alpha1.InitBundle.GetExternalName
    (initbundle_v1alpha1.InitBundle.SetExternalName cr name) = name.
Proof.
  unfold initbundle_v1alpha1.InitBundle.GetExternalName, meta.GetExternalName.
  cbn. by rewrite lookup_insert_eq.
Qed.

(** X9.  When the create call succeeds, [Create] of a Cluster returns no
    error after one reading of the clock and that one call.  If the response carries a cluster, the
    external name becomes the name the service answers with (whatever name
    was asked for) and the status its projection, and an [Observe] against a
    listing that holds a cluster of that name then finds the resource.  If
    the response carries none, [Create] still succeeds and the record stays
    unlinked.  In both cases the Ready condition says Creating. *)
Theorem cluster_create_success_links_to_answered_name
    (cr : cluster_v1alpha1.Cluster.t) (w : World S)
    (r : v1.ClusterResponse.t) (s : S) :
  let req := cluster.generateCluster (cluster_v1alpha1.Cluster.ForProvider cr)
                                     None in
  v1.PostCluster req (remote w) = (v1.Ok r, s) ->
  let out := cluster.Create (resource.OfCluster cr) w in
  out.1.2.2 = None
  ∧ out.2 = after (tick w) (v1.CallPostCluster req) s
  ∧ ∃ cr',
      out.1.1 = resource.OfCluster cr'
      ∧ xpv1.Equal (cluster_v1alpha1.Cluster.GetCondition cr' xpv1.TypeReady)
                   (xpv1.Creating (clock w)) = true
      ∧ cluster_v1alpha1.Cluster.ForProvider cr'
        = cluster_v1alpha1.Cluster.ForProvider cr
      ∧ match v1.ClusterResponse.Cluster r with
        | Some c =>
            cluster_v1alpha1.Cluster.GetExternalName cr' = storage.Cluster.Name c
            ∧ cluster_v1alpha1.Cluster.AtProvider cr'
              = cluster.generateObservation c
            ∧ ∀ resp s',
                v1.GetClusters s = (v1.Ok resp, s') ->
                Exists (fun it => storage.Cluster.Name it = storage.Cluster.Name c)
                       (v1.ClustersList.Clusters resp) ->
                managed.ExternalObservation.ResourceExists
                  (cluster.Observe out.1.1 out.2).1.2.1 = true
        | None =>
            cluster_v1alpha1.Cluster.ObjectMeta cr'
            = cluster_v1alpha1.Cluster.ObjectMeta cr
            ∧ cluster_v1alpha1.Cluster.AtProvider cr'
              = cluster_v1alpha1.Cluster.AtProvider cr
        end.
Proof.
  intros req Hpost. cbv zeta. unfold cluster.Create. run.
  cbn [cluster_v1alpha1.Cluster.SetConditions cluster_v1alpha1.Cluster.ForProvider].
  fold req. rewrite Hpost. run. split; [done|]. split; [done|].
  eexists. split; [reflexivity|].
  assert (Hready : ∀ conds,
             xpv1.Equal (xpv1.GetCondition
                           (xpv1.setCondition conds (xpv1.Creating (clock w)))
                           xpv1.TypeReady)
                        (xpv1.Creating (clock w)) = true).
  { intros conds.
    pose proof (GetCondition_setCondition_known
                  conds (xpv1.Creating (clock w)) ltac:(done)) as Hset.
    change (xpv1.Type_ (xpv1.Creating (clock w))) with xpv1.TypeReady in Hset.
    rewrite Hset.
    destruct (xpv1.Equal _ _) eqn:Heq; [exact Heq | apply Equal_refl]. }
  destruct (v1.ClusterResponse.Cluster r) as [c|].
  - split; [apply Hready|]. split; [done|].
    split; [apply cluster_GetExternalName_SetExternalName|]. split; [done|].
    intros resp s' Hget Hex.
    match goal with
    | |- context [cluster.Observe (resource.OfCluster ?x) ?y] =>
        destruct (cluster_Observe_found x y resp s' Hget) as [_ ->]
    end.
    rewrite cluster_GetExternalName_SetExternalName.
    apply bool_decide_eq_true_2.
    destruct (find_some_of_Exists _ _ Hex) as (x & -> & _). by eexists.
  - split; [apply Hready|]. done.
Qed.

(** X10.  When the generate call succeeds, [Create] of an InitBundle
    returns no error, after one reading of the clock and that one call,
    and, as connection details, exactly the two bundles of
    the response under the keys "helmValuesBundle" and "kubectlBundle",
    whether or not the response carries the bundle's metadata.  With
    metadata the external name becomes the name the service answers with
    and the status its projection; without, the record stays unlinked. *)
Theorem initbundle_create_success_returns_bundles
    (cr : initbundle_v1alpha1.InitBundle.t) (w : World S)
    (r : v1.InitBundleGenResponse.t) (s : S) :
  let req := {| v1.InitBundleGenRequest.Name :=
                  initbundle_v1alpha1.InitBundleParameters.Name
                    (initbundle_v1alpha1.InitBundle.ForProvider cr) |} in
  v1.GenerateInitBundle req (remote w) = (v1.Ok r, s) ->
  let out := initbundle.Create (resource.OfInitBundle cr) w in
  let details := managed.ExternalCreation.ConnectionDetails out.1.2.1 in
  out.1.2.2 = None
  ∧ out.2 = after (tick w) (v1.CallGenerateInitBundle req) s
  ∧ details !! "helmValuesBundle" = Some (v1.InitBundleGenResponse.HelmValuesBundle r)
  ∧ details !! "kubectlBundle" = Some (v1.InitBundleGenResponse.KubectlBundle r)
  ∧ dom details = {["helmValuesBundle"; "kubectlBundle"]}
  ∧ ∃ cr',
      out.1.1 = resource.OfInitBundle cr'
      ∧ match v1.InitBundleGenResponse.Meta r with
        | Some m =>
            initbundle_v1alpha1.InitBundle.GetExternalName cr'
            = v1.InitBundleMeta.Name m
            ∧ initbundle_v1alpha1.InitBundle.AtProvider cr'
              = initbundle.generateObservation m
        | None =>
            initbundle_v1alpha1.InitBundle.ObjectMeta cr'
            = initbundle_v1alpha1.InitBundle.ObjectMeta cr
            ∧ initbundle_v1alpha1.InitBundle.AtProvider cr'
              = initbundle_v1alpha1.InitBundle.AtProvider cr
        end.
Proof.
  intros req Hgen. cbv zeta. unfold initbundle.Create. run.
  cbn [initbundle_v1alpha1.InitBundle.SetConditions
         initbundle_v1alpha1.InitBundle.ForProvider].
  fold req. rewrite Hgen. run.
  split; [done|]. split; [done|].
  cbn [managed.ExternalCreation.ConnectionDetails].
  split; [by rewrite lookup_insert_ne, lookup_insert_eq|].
  split; [by rewrite lookup_insert_eq|].
  split; [rewrite !dom_insert_L; set_solver|].
  eexists. split; [reflexivity|].
  destruct (v1.InitBundleGenResponse.Meta r) as [m|]; [|done].
  split; [apply initbundle_GetExternalName_SetExternalName | done].
Qed.

(** X11.  If the fetch at the start of [Update] of a Cluster fails,
    [Update] returns that error wrapped with the get message and then the
    update message, makes no replace call, and returns the record as it
    was. *)
Theorem cluster_update_fetch_failure_is_update_failed
    (cr : cluster_v1alpha1.Cluster.t) (w : World S) (e : errors.error) (s : S) :
  v1.GetClusters (remote w) = (v1.Fail e, s) ->
  cluster.Update (resource.OfCluster cr) w
  = ((resource.OfCluster cr,
      (managed.ExternalUpdate.zero,
       Some (errors.withMessage (errors.withMessage e "cannot get cluster")
                                "cannot update cluster"))),
     after w v1.CallGetClusters s).
Proof.
  intros Hget. unfold cluster.Update. run.
  by rewrite (getCluster_fail cr w e s Hget).
Qed.

(** X12.  When the fetch finds [fetched] and the replace call succeeds,
    [Update] of a Cluster returns no error.  If the response carries a
    cluster, the status becomes its projection and the external name the
    name the service answers with, so a cluster renamed in the parameters
    stays linked under its new name; if it carries none, the record is as
    it was.  [Update] sets no condition either way. *)
Theorem cluster_update_success_follows_answer
    (cr : cluster_v1alpha1.Cluster.t) (w : World S)
    (resp : v1.ClustersList.t) (s s' : S) (fetched : storage.Cluster.t)
    (r : v1.ClusterResponse.t) :
  v1.GetClusters (remote w) = (v1.Ok resp, s) ->
  find (fun it => bool_decide (storage.Cluster.Name it
                               = cluster_v1alpha1.Cluster.GetExternalName cr))
       (v1.ClustersList.Clusters resp) = Some fetched ->
  v1.PutCluster (cluster.generateCluster (cluster_v1alpha1.Cluster.ForProvider cr)
                                         (Some fetched)) s
  = (v1.Ok r, s') ->
  let out := cluster.Update (resource.OfCluster cr) w in
  out.1.2.2 = None
  ∧ ∃ cr',
      out.1.1 = resource.OfCluster cr'
      ∧ cluster_v1alpha1.Cluster.Conditions cr'
        = cluster_v1alpha1.Cluster.Conditions cr
      ∧ cluster_v1alpha1.Cluster.ForProvider cr'
        = cluster_v1alpha1.Cluster.ForProvider cr
      ∧ match v1.ClusterResponse.Cluster r with
        | Some c =>
            cluster_v1alpha1.Cluster.GetExternalName cr' = storage.Cluster.Name c
            ∧ cluster_v1alpha1.Cluster.AtProvider cr'
              = cluster.generateObservation c
        | None => cr' = cr
        end.
Proof.
  intros Hget Hfind Hput. cbv zeta.
  rewrite (cluster_Update_present cr w resp s fetched Hget Hfind).
  cbv zeta. rewrite Hput. cbn [fst snd]. split; [done|].
  eexists. split; [reflexivity|].
  destruct (v1.ClusterResponse.Cluster r) as [c|]; [|done].
  split; [done|]. split; [done|].
  split; [apply cluster_GetExternalName_SetExternalName | done].
Qed.

(** X13.  Whatever the delete call answers, [Delete] of either kind leaves
    the metadata (the external name with it), the parameters and the
    observed status of the record as they were, and changes of the
    conditions only Ready, which then says Deleting.  The identifier it
    sends is the one in the status, not the external name. *)
Theorem delete_marks_deleting_and_keeps_record
    (crc : cluster_v1alpha1.Cluster.t)
    (crb : initbundle_v1alpha1.InitBundle.t) (w : World S) :
  (∃ cr',
     (cluster.Delete (resource.OfCluster crc) w).1.1 = resource.OfCluster cr'
     ∧ cluster_v1alpha1.Cluster.ObjectMeta cr'
       = cluster_v1alpha1.Cluster.ObjectMeta crc
     ∧ cluster_v1alpha1.Cluster.ForProvider cr'
       = cluster_v1alpha1.Cluster.ForProvider crc
     ∧ cluster_v1alpha1.Cluster.AtProvider cr'
       = cluster_v1alpha1.Cluster.AtProvider crc
     ∧ xpv1.Equal (cluster_v1alpha1.Cluster.GetCondition cr' xpv1.TypeReady)
                  (xpv1.Deleting (clock w)) = true
     ∧ ∀ ct, ct ≠ xpv1.TypeReady ->
         cluster_v1alpha1.Cluster.GetCondition cr' ct
         = cluster_v1alpha1.Cluster.GetCondition crc ct)
  ∧ (∃ cr',
       (initbundle.Delete (resource.OfInitBundle crb) w).1.1
       = resource.OfInitBundle cr'
       ∧ initbundle_v1alpha1.InitBundle.ObjectMeta cr'
         = initbundle_v1alpha1.InitBundle.ObjectMeta crb
       ∧ initbundle_v1alpha1.InitBundle.ForProvider cr'
         = initbundle_v1alpha1.InitBundle.ForProvider crb
       ∧ initbundle_v1alpha1.InitBundle.AtProvider cr'
         = initbundle_v1alpha1.InitBundle.AtProvider crb
       ∧ xpv1.Equal (initbundle_v1alpha1.InitBundle.GetCondition cr' xpv1.TypeReady)
                    (xpv1.Deleting (clock w)) = true
       ∧ ∀ ct, ct ≠ xpv1.TypeReady ->
           initbundle_v1alpha1.InitBundle.GetCondition cr' ct
           = initbundle_v1alpha1.InitBundle.GetCondition crb ct).
Proof.
  pose proof (cluster_Delete_run crc w) as Hc.
  pose proof (initbundle_Delete_run crb w) as Hb.
  cbv zeta in Hc, Hb. rewrite Hc, Hb. cbn [fst snd].
  assert (Hready : ∀ conds,
             xpv1.Equal (xpv1.GetCondition
                           (xpv1.setCondition conds (xpv1.Deleting (clock w)))
                           xpv1.TypeReady)
                        (xpv1.Deleting (clock w)) = true).
  { intros conds.
    pose proof (GetCondition_setCondition_known
                  conds (xpv1.Deleting (clock w)) ltac:(done)) as Hset.
    change (xpv1.Type_ (xpv1.Deleting (clock w))) with xpv1.TypeReady in Hset.
    rewrite Hset.
    destruct (xpv1.Equal _ _) eqn:Heq; [exact Heq | apply Equal_refl]. }
  split; (eexists; split; [reflexivity|]);
    (split; [done|]); (split; [done|]); (split; [done|]);
    (split; [apply Hready|]); intros ct Hct;
    by apply (GetCondition_setCondition_other _ (xpv1.Deleting (clock w))).
Qed.

End writes_more.

(** On an empty service the new Cluster is created under the name asked
    for, and the next [Observe] finds it. *)
Lemma cluster_create_success_links_to_answered_name_witness :
  let out := cluster.Create (tables := fake.tables)
               (resource.OfCluster sample.new_cluster)
               (sample.world sample.empty_server) in
  out.1.2.2 = None
  ∧ meta.GetExternalName (resource.ObjectMeta out.1.1) = "prod"
  ∧ managed.ExternalObservation.ResourceExists
      (cluster.Observe (tables := fake.tables) out.1.1 out.2).1.2.1 = true.
Proof.
  cbv zeta.
  pose proof (cluster_create_success_links_to_answered_name
                (tables := fake.tables)
                sample.new_cluster (sample.world sample.empty_server)
                {| v1.ClusterResponse.Cluster :=
                     Some (fake.stored
                             (cluster.generateCluster (tables := fake.tables)
                                sample.params None) "id-prod") |}
                (fake.with_clusters sample.empty_server
                   [fake.stored
                      (cluster.generateCluster (tables := fake.tables)
                         sample.params None) "id-prod"])
                eq_refl) as (Herr & _ & cr' & Hout & _ & _ & Hname & _ & Hnext).
  split; [exact Herr|]. split.
  - rewrite Hout. exact Hname.
  - eapply Hnext; [reflexivity|]. apply Exists_cons_hd. reflexivity.
Defined.

(** On an empty service the new bundle is generated, and its two bundles
    come back as connection details. *)
Lemma initbundle_create_success_returns_bundles_witness :
  let out := initbundle.Create (resource.OfInitBundle sample.new_bundle)
               (sample.world sample.empty_server) in
  managed.ExternalCreation.ConnectionDetails out.1.2.1 !! "kubectlBundle"
  = Some "kubectl-secrets"
  ∧ managed.ExternalCreation.ConnectionDetails out.1.2.1 !! "helmValuesBundle"
    = Some "helm-values".
Proof.
  cbv zeta.
  edestruct (initbundle_create_success_returns_bundles
               sample.new_bundle (sample.world sample.empty_server))
    as (_ & _ & Hhelm & Hkube & _); [reflexivity|].
  split; [exact Hkube | exact Hhelm].
Defined.

(** With the service down the fetch of [Update] fails. *)
Lemma cluster_update_fetch_failure_is_update_failed_witness :
  errors.Error <$>
    (cluster.Update (tables := fake.tables)
       (resource.OfCluster sample.linked_cluster)
       (sample.world
          {| fake.clusters := []; fake.bundles := []; fake.closed := false;
             fake.outage := Some (errors.Status codes.Unavailable "unavailable");
             fake.write_fault := None |})).1.2.2
  = Some "cannot update cluster: cannot get cluster: rpc error: code = Unavailable desc = unavailable".
Proof.
  rewrite (cluster_update_fetch_failure_is_update_failed (tables := fake.tables)
             sample.linked_cluster
             (sample.world
                {| fake.clusters := []; fake.bundles := []; fake.closed := false;
                   fake.outage := Some (errors.Status codes.Unavailable "unavailable");
                   fake.write_fault := None |})
             (errors.Status codes.Unavailable "unavailable")
             {| fake.clusters := []; fake.bundles := []; fake.closed := false;
                fake.outage := Some (errors.Status codes.Unavailable "unavailable");
                fake.write_fault := None |});
    reflexivity.
Defined.

(** The replace of the linked Cluster succeeds on the sample service; the
    status then shows the desired collector image. *)
Lemma cluster_update_success_follows_answer_witness :
  ∃ cr',
    (cluster.Update (tables := fake.tables)
       (resource.OfCluster sample.linked_cluster)
       (sample.world sample.server)).1.1 = resource.OfCluster cr'
    ∧ cluster_v1alpha1.Cluster.GetExternalName cr' = "prod"
    ∧ cluster_v1alpha1.ClusterObservation.CollectorImage
        (cluster_v1alpha1.Cluster.AtProvider cr')
      = "registry.redhat.io/collector".
Proof.
  pose proof (cluster_update_success_follows_answer (tables := fake.tables)
                sample.linked_cluster (sample.world sample.server)
                {| v1.ClustersList.Clusters := fake.clusters sample.server |}
                sample.server) as H.
  cbv zeta in H.
  edestruct H as (_ & cr' & Hout & _ & _ & Hanswer);
    [reflexivity | reflexivity | reflexivity |].
  cbn in Hanswer. destruct Hanswer as [Hname Hat].
  exists cr'. split; [exact Hout|]. split; [exact Hname|].
  rewrite Hat. reflexivity.
Defined.

(** ** The projection of an init bundle *)

Section bundle_projection.

Lemma foldl_snoc_map {A B : Type} (f : A -> B) (l : list A) (acc : list B) :
  foldl (fun (acc : list B) x => acc ++ [f x]) acc l = acc ++ (f <$> l).
Proof.
  revert acc. induction l as [|x l IH]; intros acc; cbn.
  - by rewrite app_nil_r.
  - rewrite IH. by rewrite <- app_assoc.
Qed.

Lemma find_app {A : Type} (p : A -> bool) (l1 l2 : list A) :
  find p (l1 ++ l2) = match find p l1 with
                      | Some x => Some x
                      | None => find p l2
                      end.
Proof.
  induction l1 as [|x l1 IH]; [done|]. cbn. by destruct (p x).
Qed.

Lemma foldl_insert_lookup (l : list storage.UserAttribute.t)
    (m : gmap string string) (k : string) :
  foldl (fun (att : gmap string string) it =>
           <[storage.UserAttribute.Key it := storage.UserAttribute.Value it]> att)
        m l !! k
  = match find (fun it => bool_decide (storage.UserAttribute.Key it = k))
               (reverse l) with
    | Some it => Some (storage.UserAttribute.Value it)
    | None => m !! k
    end.
Proof.
  revert m. induction l as [|a l IH]; intros m; [done|].
  cbn [foldl]. rewrite IH, reverse_cons, find_app.
  destruct (find _ (reverse l)) as [it|]; [done|]. cbn.
  case_bool_decide as Hk.
  - subst k. by rewrite lookup_insert_eq.
  - by rewrite lookup_insert_ne.
Qed.

(** X14.  The projection of an init bundle keeps the impacted clusters in
    their order, one for one; of several user attributes with the same key
    the last one wins, and a key that no attribute has is absent; a bundle
    without creator is observed with an empty user; and a missing creation
    or expiry time is observed as the Unix epoch, which is not the zero
    time. *)
Theorem initbundle_projection_of_parts (in_ : v1.InitBundleMeta.t) (k : string) :
  let obs := initbundle.generateObservation in_ in
  initbundle_v1alpha1.InitBundleObservation.ImpactedClusters obs
  = (fun it => {| initbundle_v1alpha1.ImpactedCluster.ID := v1.ImpactedCluster.Id it;
                  initbundle_v1alpha1.ImpactedCluster.Name :=
                    v1.ImpactedCluster.Name it |})
      <$> v1.InitBundleMeta.ImpactedClusters in_
  ∧ initbundle_v1alpha1.User.Attributes
      (initbundle_v1alpha1.InitBundleObservation.CreatedBy obs) !! k
    = storage.UserAttribute.Value
        <$> find (fun it => bool_decide (storage.UserAttribute.Key it = k))
                 (reverse (storage.User.GetAttributes
                             (v1.InitBundleMeta.CreatedBy in_)))
  ∧ (v1.InitBundleMeta.CreatedBy in_ = None ->
     initbundle_v1alpha1.InitBundleObservation.CreatedBy obs
     = {| initbundle_v1alpha1.User.Attributes := ∅;
          initbundle_v1alpha1.User.AuthProviderID := "";
          initbundle_v1alpha1.User.ID := "" |})
  ∧ (v1.InitBundleMeta.CreatedAt in_ = None ->
     initbundle_v1alpha1.InitBundleObservation.CreatedAt obs = 0
     ∧ initbundle_v1alpha1.InitBundleObservation.CreatedAt obs ≠ metav1.zero)
  ∧ (v1.InitBundleMeta.ExpiresAt in_ = None ->
     initbundle_v1alpha1.InitBundleObservation.ExpiresAt obs = 0).
Proof.
  cbv zeta. unfold initbundle.generateObservation. cbn.
  split; [by rewrite foldl_snoc_map|]. split.
  { rewrite foldl_insert_lookup. by destruct (find _ _). }
  split; [by intros ->|]. split; [by intros ->|by intros ->].
Qed.

End bundle_projection.

(** A bundle whose creator has the attribute "role" twice, and no
    timestamps. *)
Lemma initbundle_projection_of_parts_witness :
  let twice :=
    {| v1.InitBundleMeta.Id := "b-20"; v1.InitBundleMeta.Name := "twice";
       v1.InitBundleMeta.ImpactedClusters := [];
       v1.InitBundleMeta.CreatedAt := None;
       v1.InitBundleMeta.CreatedBy :=
         Some {| storage.User.Id := "admin"; storage.User.AuthProviderId := "basic";
                 storage.User.Attributes :=
                   [{| storage.UserAttribute.Key := "role";
                       storage.UserAttribute.Value := "Analyst" |};
                    {| storage.UserAttribute.Key := "role";
                       storage.UserAttribute.Value := "Admin" |}] |};
       v1.InitBundleMeta.ExpiresAt := None |} in
  initbundle_v1alpha1.User.Attributes
    (initbundle_v1alpha1.InitBundleObservation.CreatedBy
       (initbundle.generateObservation twice)) !! "role" = Some "Admin"
  ∧ initbundle_v1alpha1.InitBundleObservation.CreatedAt
      (initbundle.generateObservation twice) = 0.
Proof.
  cbv zeta.
  edestruct (initbundle_projection_of_parts) as (_ & Hatt & _ & Hat & _).
  split; [rewrite Hatt; reflexivity | apply Hat; reflexivity].
Defined.

(** ** The status against what is compared *)

Section status_and_drift.
Context {S : Type} {svc : v1.Central S} {tables : storage.Enums}.

(** X15.  The status shows what the drift check compares: for every remote
    cluster, each parameter field of [generateObservation] is the field
    that [isUpToDate] reads back.  Beyond the parameters the status takes
    the identifier and the manager of the remote cluster, but never its
    init-bundle identifier, which stays empty; a remote cluster without
    sensor is shown with an empty sensor, and one without tolerations
    config with [Tolerations = true]. *)
Theorem observation_agrees_with_compared_parameters (c : storage.Cluster.t) :
  let obs := cluster.generateObservation c in
  let p := cluster.observedParams c in
  (cluster_v1alpha1.ClusterObservation.AdmissionController obs
   = cluster_v1alpha1.ClusterParameters.AdmissionController p
   ∧ cluster_v1alpha1.ClusterObservation.AdmissionControllerEvents obs
     = cluster_v1alpha1.ClusterParameters.AdmissionControllerEvents p
   ∧ cluster_v1alpha1.ClusterObservation.AdmissionControllerUpdates obs
     = cluster_v1alpha1.ClusterParameters.AdmissionControllerUpdates p
   ∧ cluster_v1alpha1.ClusterObservation.CentralAPIEndpoint obs
     = cluster_v1alpha1.ClusterParameters.CentralAPIEndpoint p
   ∧ cluster_v1alpha1.ClusterObservation.CollectionMethod obs
     = cluster_v1alpha1.ClusterParameters.CollectionMethod p
   ∧ cluster_v1alpha1.ClusterObservation.CollectorImage obs
     = cluster_v1alpha1.ClusterParameters.CollectorImage p
   ∧ cluster_v1alpha1.ClusterObservation.Labels obs
     = cluster_v1alpha1.ClusterParameters.Labels p
   ∧ cluster_v1alpha1.ClusterObservation.MainImage obs
     = cluster_v1alpha1.ClusterParameters.MainImage p
   ∧ cluster_v1alpha1.ClusterObservation.Name obs
     = cluster_v1alpha1.ClusterParameters.Name p
   ∧ cluster_v1alpha1.ClusterObservation.SlimCollector obs
     = cluster_v1alpha1.ClusterParameters.SlimCollector p
   ∧ cluster_v1alpha1.ClusterObservation.Tolerations obs
     = cluster_v1alpha1.ClusterParameters.Tolerations p
   ∧ cluster_v1alpha1.ClusterObservation.Type_ obs
     = cluster_v1alpha1.ClusterParameters.Type_ p)
  ∧ cluster_v1alpha1.ClusterObservation.ID obs = storage.Cluster.Id c
  ∧ cluster_v1alpha1.ClusterObservation.InitBundleID obs = ""
  ∧ (storage.Cluster.MostRecentSensorId c = None ->
     cluster_v1alpha1.ClusterObservation.MostRecentSensor obs
     = {| cluster_v1alpha1.SensorDeployment.AppNamespace := "";
          cluster_v1alpha1.SensorDeployment.AppNamespaceID := "";
          cluster_v1alpha1.SensorDeployment.AppServiceAccountID := "";
          cluster_v1alpha1.SensorDeployment.DefaultNamespaceID := "";
          cluster_v1alpha1.SensorDeployment.K8SNodeName := "";
          cluster_v1alpha1.SensorDeployment.SystemNamespaceID := "" |})
  ∧ (storage.Cluster.TolerationsConfig c = None ->
     cluster_v1alpha1.ClusterObservation.Tolerations obs = true).
Proof.
  cbv zeta. split; [by repeat split|]. split; [done|]. split; [done|].
  split; cbn; by intros ->.
Qed.

(** X16.  When the list call succeeds and no entry carries the external
    name, [Observe] of either kind returns the record exactly as it was:
    the observed status of an earlier pass and the Ready condition stay
    (a resource that has gone remotely still shows its last status and
    still says Available), and the answer is the one of a resource that
    does not exist, with no diff. *)
Theorem observe_absent_leaves_record
    (crc : cluster_v1alpha1.Cluster.t) (wc : World S)
    (respc : v1.ClustersList.t) (sc : S)
    (crb : initbundle_v1alpha1.InitBundle.t) (wb : World S)
    (respb : v1.InitBundleMetasResponse.t) (sb : S) :
  v1.GetClusters (remote wc) = (v1.Ok respc, sc) ->
  Forall (fun it => storage.Cluster.Name it
                    ≠ cluster_v1alpha1.Cluster.GetExternalName crc)
         (v1.ClustersList.Clusters respc) ->
  v1.GetInitBundles (remote wb) = (v1.Ok respb, sb) ->
  Forall (fun it => v1.InitBundleMeta.Name it
                    ≠ initbundle_v1alpha1.InitBundle.GetExternalName crb)
         (v1.InitBundleMetasResponse.Items respb) ->
  cluster.Observe (resource.OfCluster crc) wc
  = ((resource.OfCluster crc,
      ({| managed.ExternalObservation.ResourceExists := false;
          managed.ExternalObservation.ResourceUpToDate := false;
          managed.ExternalObservation.Diff := "" |}, None)),
     after wc v1.CallGetClusters sc)
  ∧ initbundle.Observe (resource.OfInitBundle crb) wb
    = ((resource.OfInitBundle crb,
        ({| managed.ExternalObservation.ResourceExists := false;
            managed.ExternalObservation.ResourceUpToDate := false;
            managed.ExternalObservation.Diff := "" |}, None)),
       after wb v1.CallGetInitBundles sb).
Proof.
  intros Hc Hnc Hb Hnb. split.
  - unfold cluster.Observe. run.
    rewrite (getCluster_ok crc wc respc sc Hc).
    by rewrite (find_none_of_Forall _ _ Hnc).
  - unfold initbundle.Observe. run.
    rewrite (getInitBundle_ok crb wb respb sb Hb).
    by rewrite (find_none_of_Forall _ _ Hnb).
Qed.

End status_and_drift.

(** The linked records against an empty service: both keep the status of
    the pass at time 100 and the Ready condition Available. *)
Lemma observe_absent_leaves_record_witness :
  (cluster.Observe (tables := fake.tables)
     (resource.OfCluster sample.linked_cluster)
     (sample.world sample.empty_server)).1.1
  = resource.OfCluster sample.linked_cluster
  ∧ (initbundle.Observe (resource.OfInitBundle sample.linked_bundle)
       (sample.world sample.empty_server)).1.1
    = resource.OfInitBundle sample.linked_bundle
  ∧ xpv1.Reason (cluster_v1alpha1.Cluster.GetCondition
                   sample.linked_cluster xpv1.TypeReady) = "Available".
Proof.
  destruct (observe_absent_leaves_record (tables := fake.tables)
              sample.linked_cluster (sample.world sample.empty_server)
              {| v1.ClustersList.Clusters := [] |} sample.empty_server
              sample.linked_bundle (sample.world sample.empty_server)
              {| v1.InitBundleMetasResponse.Items := [] |} sample.empty_server)
    as [Hc Hb]; [reflexivity | constructor | reflexivity | constructor |].
  rewrite Hc, Hb. repeat split.
Defined.

(** ** Observe, then Update, of an InitBundle *)

Section observe_then_update.
Context {S : Type} {svc : v1.Central S}.

Lemma Equal_Status (c d : xpv1.Condition) :
  xpv1.Equal c d = true -> xpv1.Status c = xpv1.Status d.
Proof.
  unfold xpv1.Equal. intros H.
  apply andb_prop in H as [H _]. apply andb_prop in H as [H _].
  apply andb_prop in H as [_ H]. by apply bool_decide_eq_true in H.
Qed.

(** X17.  Within a pass the guard of [Update] does not fire: once
    [Observe] has found the bundle, the Ready condition says Available,
    which equals neither Creating nor Deleting at any time, so the [Update]
    that follows, whenever it runs, makes the revoke call, and the
    identifier it revokes is the one of the bundle that [Observe] found. *)
Theorem initbundle_update_after_observe_revokes_found
    (cr : initbundle_v1alpha1.InitBundle.t) (w w' : World S)
    (resp : v1.InitBundleMetasResponse.t) (s : S) (found : v1.InitBundleMeta.t) :
  v1.GetInitBundles (remote w) = (v1.Ok resp, s) ->
  find (fun it => bool_decide (v1.InitBundleMeta.Name it
                               = initbundle_v1alpha1.InitBundle.GetExternalName cr))
       (v1.InitBundleMetasResponse.Items resp) = Some found ->
  let observed := (initbundle.Observe (resource.OfInitBundle cr) w).1.1 in
  calls (initbundle.Update observed w').2
  = calls w' ++ [v1.CallRevokeInitBundle
                   {| v1.InitBundleRevokeRequest.Ids :=
                        [v1.InitBundleMeta.Id found] |}].
Proof.
  intros Hget Hfind. cbv zeta. unfold initbundle.Observe. run.
  rewrite (getInitBundle_ok cr w resp s Hget), Hfind. run.
  destruct (initbundle.isUpToDate _ found) as [up diff]. run.
  rewrite initbundle_Update_run. cbv zeta.
  set (cr' := initbundle_v1alpha1.InitBundle.SetConditions _ _).
  assert (Hready : xpv1.Status
                     (initbundle_v1alpha1.InitBundle.GetCondition cr' xpv1.TypeReady)
                   = xpv1.ConditionTrue).
  { subst cr'. unfold initbundle_v1alpha1.InitBundle.GetCondition. cbn.
    pose proof (GetCondition_setCondition_known
                  (initbundle_v1alpha1.InitBundle.Conditions cr)
                  (xpv1.Available (clock w)) ltac:(done)) as Hset.
    change (xpv1.Type_ (xpv1.Available (clock w))) with xpv1.TypeReady in Hset.
    rewrite Hset. destruct (xpv1.Equal _ _) eqn:Heq; [|done].
    by apply Equal_Status in Heq. }
  rewrite bool_decide_eq_false_2
    by (intros Heq; rewrite Heq in Hready; discriminate).
  rewrite bool_decide_eq_false_2
    by (intros Heq; rewrite Heq in Hready; discriminate).
  cbn [orb fst snd]. by rewrite initbundle_Delete_run.
Qed.

End observe_then_update.

(** The linked bundle, renamed in the parameters or not, is revoked by the
    [Update] that follows its [Observe]. *)
Lemma initbundle_update_after_observe_revokes_found_witness :
  calls (initbundle.Update
           (initbundle.Observe (resource.OfInitBundle sample.linked_bundle)
              (sample.world sample.server)).1.1
           (sample.world sample.server)).2
  = [v1.CallRevokeInitBundle {| v1.InitBundleRevokeRequest.Ids := ["b-19"] |}].
Proof.
  apply (initbundle_update_after_observe_revokes_found
           sample.linked_bundle (sample.world sample.server)
           (sample.world sample.server)
           {| v1.InitBundleMetasResponse.Items := [sample.remote_bundle] |}
           sample.server sample.remote_bundle); reflexivity.
Defined.
